(** * The Alertmanager notification service of kapacitor

    A shallow embedding of [services/alertmanager/service.go] and the
    properties of its configuration cell, its record construction, its
    HTTP dispatch, its event handler and its self test.

    Go values are embedded as follows: [int] as [Z], [string] as [string],
    [[]string] as [list string] with explicit bounds checks, [map[string]string]
    as [gmap string string], [interface{}] as the tagged union [any], an
    [error] result as [option error] ([None] is [nil]).  A run-time panic is
    an explicit outcome.  Calls that leave the process (the HTTP request, the
    diagnostic sink) are recorded in a trace carried by the world. *)

From Stdlib Require Import ZArith String Ascii List Lia.
From stdpp Require Import base option list gmap strings sorting pretty.

#[local] Set Warnings "-register-all".

Local Open Scope Z_scope.
Local Open Scope string_scope.

(** ** Values of other packages *)

(** Modelled from the spec: the type [alert.Level] of package [alert], an
    enumerated severity with the level OK and the escalating levels Info,
    Warning and Critical. *)
Inductive Level : Type := OK | Info | Warning | Critical.

#[global] Instance Level_eq_dec : EqDecision Level.
Proof. solve_decision. Defined.

(** Modelled from the spec: the struct [Config] of this package (declared in
    config.go), with the enablement flag, the destination URL and the default
    room, read by the service as [c.Enabled], [c.URL] and [c.Room]. *)
Record Config : Type := mkConfig {
  Enabled : bool;
  URL : string;
  Room : string
}.

#[global] Instance Config_eq_dec : EqDecision Config.
Proof. solve_decision. Defined.

(** [keyvalue.T], a key and a value handed to the diagnostic context. *)
Record keyvalue_T : Type := KV { Key : string; Value : string }.

(** ** The data of service.go *)

Record testOptions : Type := mkTestOptions {
  to_Room : string;
  to_Message : string;
  to_AlertManagerTagName : list string;
  to_AlertManagerTagValue : list string;
  to_AlertManagerAnnotationName : list string;
  to_AlertManagerAnnotationValue : list string
}.

Record HandlerConfig : Type := mkHandlerConfig {
  hc_Room : string;
  AlertManagerTagName : list string;
  AlertManagerTagValue : list string;
  AlertManagerAnnotationName : list string;
  AlertManagerAnnotationValue : list string
}.

(** [AlertManagerAlert], the record that is put on the wire. *)
Record AlertManagerAlert : Type := mkAlert {
  Status : string;
  Labels : gmap string string;
  Annotations : gmap string string
}.

(** [PostAlertManager] is [[]AlertManagerAlert]. *)
Definition PostAlertManager : Type := list AlertManagerAlert.

(** The fixed-field request types, declared in the file and used nowhere. *)
Record AlertmanagerLabels : Type := mkAlertmanagerLabels {
  Instance_ : string;
  Event_ : string;
  Environment : string;
  Origin : string;
  Service_ : option (list string);
  Group : string;
  Customer : string
}.

Record AlertmanagerAnnotations : Type := mkAlertmanagerAnnotations {
  Summary : string;
  Value_ : string;
  Severity : string
}.

Record AlertmanagerRequest : Type := mkAlertmanagerRequest {
  req_Status : string;
  req_Labels : AlertmanagerLabels;
  req_Annotations : AlertmanagerAnnotations
}.

(** ** Interface values

    A value of static type [interface{}] is a dynamic type together with a
    value of it.  The union lists the dynamic types the package tells apart
    (its [Config], a pointer to its [testOptions], an [alert.Level]) next to
    the nil interface and some types it does not know.  A pointer is [None]
    when it is nil. *)
Inductive any : Type :=
| any_nil
| any_Config (c : Config)
| any_ConfigPtr (p : option Config)
| any_testOptionsPtr (p : option testOptions)
| any_testOptions (o : testOptions)
| any_Level (l : Level)
| any_int (n : Z)
| any_string (s : string)
| any_bool (b : bool).

(** The verb [%T] of package [fmt]: the name of the dynamic type. *)
Definition fmt_T (v : any) : string :=
  match v with
  | any_nil => "<nil>"
  | any_Config _ => "alertmanager.Config"
  | any_ConfigPtr _ => "*alertmanager.Config"
  | any_testOptionsPtr _ => "*alertmanager.testOptions"
  | any_testOptions _ => "alertmanager.testOptions"
  | any_Level _ => "alert.Level"
  | any_int _ => "int"
  | any_string _ => "string"
  | any_bool _ => "bool"
  end.

(** The type assertion [v.(Config)]. *)
Definition assert_Config (v : any) : option Config :=
  match v with any_Config c => Some c | _ => None end.

(** The type assertion [v.( *testOptions)]; the inner option is the pointer. *)
Definition assert_testOptionsPtr (v : any) : option (option testOptions) :=
  match v with any_testOptionsPtr p => Some p | _ => None end.

(** [v == l] for an interface value [v] and a constant [l] of type
    [alert.Level]: the dynamic type has to be [alert.Level] and the values
    have to agree. *)
Definition any_eq_Level (v : any) (l : Level) : bool :=
  match v with
  | any_Level l' => bool_decide (l' = l)
  | _ => false
  end.

(** ** Errors *)

(** The error values the service creates or passes on, one constructor for
    each place of creation. *)
Inductive error : Type :=
| Errorf_config_count (l : Z)
| Errorf_config_type (got : any)
| errors_New (msg : string)
| Errorf_response_code (code : Z)
| Errorf_options_type
| transport_error (cause : string).

(** The method [Error()]: the message, as the format strings give it. *)
Definition error_Error (e : error) : string :=
  match e with
  | Errorf_config_count l =>
      "expected only one new config object, got " +:+ pretty l
  | Errorf_config_type got =>
      "expected config object to be of type alertmanager.Config, got "
        +:+ fmt_T got
  | errors_New msg => msg
  | Errorf_response_code code =>
      "unexpected response code " +:+ pretty code
        +:+ " from Alertmanager service"
  | Errorf_options_type => "unexpected options type *alertmanager.testOptions"
  | transport_error cause => cause
  end.

(** ** Panics and outcomes *)

Inductive panic : Type :=
| index_out_of_range (i len : Z)
| nil_interface_conversion
| nil_pointer_dereference.

Inductive outcome (A : Type) : Type :=
| Return (a : A)
| Panicked (p : panic).
Arguments Return {A} a.
Arguments Panicked {A} p.

Definition obind {A B : Type} (x : outcome A) (k : A -> outcome B) : outcome B :=
  match x with
  | Return a => k a
  | Panicked p => Panicked p
  end.

(** [len(s)] of a slice, an [int]. *)
Definition len {A : Type} (s : list A) : Z := Z.of_nat (length s).

(** [s[i]]: the element, or the panic of the run time when [i] is out of
    range. *)
Definition index {A : Type} (s : list A) (i : Z) : outcome A :=
  if bool_decide (0 <= i < len s) then
    match s !! Z.to_nat i with
    | Some x => Return x
    | None => Panicked (index_out_of_range i (len s))
    end
  else Panicked (index_out_of_range i (len s)).

(** [for i := start; i < start + n; i++ { body }] for a body that assigns
    neither to [i] nor to the bound: [n] is the number of passes left. *)
Fixpoint for_from {S : Type} (n : nat) (i : Z)
    (body : Z -> S -> outcome S) (s : S) : outcome S :=
  match n with
  | O => Return s
  | Datatypes.S n' => obind (body i s) (for_from n' (i + 1) body)
  end.

(** [for i := 0; i < bound; i++ { body }]; a bound that is zero or negative
    gives no pass. *)
Definition for_lt {S : Type} (bound : Z)
    (body : Z -> S -> outcome S) (s : S) : outcome S :=
  for_from (Z.to_nat bound) 0 body s.

(** ** The record construction of [Service.Alert] (lines 94 to 112) *)

Definition alertStatus (alertLevel : any) : string :=
  if any_eq_Level alertLevel OK then "resolved" else "firing".

(** One pass of a loop [m[names[i]] = values[i]]. *)
Definition assign_pair (names values : list string) (i : Z)
    (m : gmap string string) : outcome (gmap string string) :=
  obind (index names i) (fun k =>
  obind (index values i) (fun v =>
  Return (<[k := v]> m))).

(** [for i := 0; i < len(tagName)-1; i++ { alertLabels[tagName[i]] = tagValue[i] }] *)
Definition alertLabels (tagName tagValue : list string)
    : outcome (gmap string string) :=
  for_lt (len tagName - 1) (assign_pair tagName tagValue) ∅.

(** [for i := 0; i < len(tagName)-1; i++ { alertAnnotations[annotationName[i]] = annotationValue[i] }];
    the bound is the one of the source, the length of [tagName]. *)
Definition alertAnnotations (tagName annotationName annotationValue : list string)
    : outcome (gmap string string) :=
  for_lt (len tagName - 1) (assign_pair annotationName annotationValue) ∅.

Definition newAlert (tagName tagValue annotationName annotationValue : list string)
    (alertLevel : any) : outcome AlertManagerAlert :=
  let st := alertStatus alertLevel in
  obind (alertLabels tagName tagValue) (fun ls =>
  obind (alertAnnotations tagName annotationName annotationValue) (fun ans =>
  Return {| Status := st; Labels := ls; Annotations := ans |})).

(** ** JSON, as package [encoding/json] writes the values of this file *)

Inductive json : Type :=
| JNull
| JString (s : string)
| JArray (items : list json)
| JObject (fields : list (string * json)).

(** The JSON string literal that [encoding/json] writes for a Go string
    (quotes, escapes, replacement of invalid UTF-8).  It belongs to the Go
    library and is taken as given. *)
Class JSONString : Type := encodeString : string -> string.

(** An encoder that only puts the quotes; it agrees with the library on
    strings that need no escape. *)
Definition quoteOnly : JSONString :=
  fun s => String (ascii_of_nat 34) (s +:+ String (ascii_of_nat 34) EmptyString).

(** The interface [Diagnostic].  [WithContext] gives a new diagnostic; the
    calls of [Error] are events of the trace below. *)
Class Diagnostic (D : Type) : Type := WithContext : D -> list keyvalue_T -> D.

(** A diagnostic that is the list of the context it was given. *)
Definition listDiagnostic : Diagnostic (list keyvalue_T) :=
  fun d ctx => (d ++ ctx)%list.

(** The order in which the encoder writes the keys of a map. *)
Definition key_le (x y : string * string) : Prop :=
  String.leb (fst x) (fst y) = true.

#[global] Instance key_le_dec (x y : string * string) : Decision (key_le x y).
Proof. unfold key_le. apply _. Defined.

Definition sorted_entries (m : gmap string string) : list (string * string) :=
  merge_sort key_le (map_to_list m).

Definition json_of_map (m : gmap string string) : json :=
  JObject (map (fun kv => (fst kv, JString (snd kv))) (sorted_entries m)).

(** The struct has no field tags: the keys are the names of the fields. *)
Definition json_of_AlertManagerAlert (a : AlertManagerAlert) : json :=
  JObject [("Status", JString (Status a));
           ("Labels", json_of_map (Labels a));
           ("Annotations", json_of_map (Annotations a))].

Definition json_of_PostAlertManager (p : PostAlertManager) : json :=
  JArray (map json_of_AlertManagerAlert p).

(** The tagged structs.  A slice is [None] when it is nil: a nil slice is
    written as null, a slice that is not nil as an array, the empty one as
    the empty array. *)
Definition json_of_strings (l : option (list string)) : json :=
  match l with
  | None => JNull
  | Some l => JArray (map JString l)
  end.

Definition json_of_AlertmanagerLabels (l : AlertmanagerLabels) : json :=
  JObject [("instance", JString (Instance_ l));
           ("event", JString (Event_ l));
           ("environment", JString (Environment l));
           ("origin", JString (Origin l));
           ("service", json_of_strings (Service_ l));
           ("group", JString (Group l));
           ("customer", JString (Customer l))].

Definition json_of_AlertmanagerAnnotations (a : AlertmanagerAnnotations) : json :=
  JObject [("summary", JString (Summary a));
           ("value", JString (Value_ a));
           ("severity", JString (Severity a))].

Definition json_of_AlertmanagerRequest (r : AlertmanagerRequest) : json :=
  JObject [("status", JString (req_Status r));
           ("labels", json_of_AlertmanagerLabels (req_Labels r));
           ("annotations", json_of_AlertmanagerAnnotations (req_Annotations r))].

Definition join (sep : string) (l : list string) : string :=
  match l with
  | [] => ""
  | x :: r => fold_left (fun acc y => acc +:+ sep +:+ y) r x
  end.

Fixpoint render `{JSONString} (j : json) : string :=
  match j with
  | JNull => "null"
  | JString s => encodeString s
  | JArray items => "[" +:+ join "," (map render items) +:+ "]"
  | JObject fields =>
      "{" +:+ join "," (map (fun kv => encodeString (fst kv) +:+ ":" +:+ render (snd kv)) fields)
          +:+ "}"
  end.

(** [json.Marshal(postMessage)]: the bytes and the error, which is nil for
    a slice of structs of strings and string maps. *)
Definition json_Marshal `{JSONString} (p : PostAlertManager) : string * option error :=
  (render (json_of_PostAlertManager p), None).

(** *** The body as the interface description gives it

    The following definitions do not come from the code.  They spell the
    text of section 6 of the specification, byte by byte, with the functions
    of the standard library only, and are what the body the code posts is
    compared with. *)

(** The bytes that [encoding/json] copies as they are: the printable ASCII
    characters and DEL, without the quote, the backslash and the three
    characters it escapes for HTML (ampersand, less than, greater than). *)
Definition plain_byte (b : ascii) : bool :=
  let n := nat_of_ascii b in
  Nat.leb 32 n && Nat.leb n 127
  && negb (Nat.eqb n 34) && negb (Nat.eqb n 38) && negb (Nat.eqb n 60)
  && negb (Nat.eqb n 62) && negb (Nat.eqb n 92).

Definition plain (s : string) : bool :=
  forallb plain_byte (list_ascii_of_string s).

(** A string between two quote characters (the byte 34). *)
Definition in_quotes (s : string) : string :=
  String (ascii_of_nat 34) (s +:+ String (ascii_of_nat 34) EmptyString).

(** The text of an object with the members [entries], in their order: each
    member is a name, a colon and a value, the members are separated by
    commas. *)
Definition object_text `{JSONString} (entries : list (string * string)) : string :=
  "{" +:+ String.concat ","
            (map (fun kv => encodeString (fst kv) +:+ ":" +:+ encodeString (snd kv))
                 entries)
      +:+ "}".

(** The array of one object with the members Status, Labels and
    Annotations, in this order and this spelling. *)
Definition wire_body `{JSONString} (status : string)
    (labels annotations : list (string * string)) : string :=
  "[{" +:+ in_quotes "Status" +:+ ":" +:+ in_quotes status +:+ ","
       +:+ in_quotes "Labels" +:+ ":" +:+ object_text labels +:+ ","
       +:+ in_quotes "Annotations" +:+ ":" +:+ object_text annotations +:+ "}]".

(** Modelled from the spec: the struct [alert.Event] of package [alert], of
    which the handler reads [event.State.Level]; the state also carries the
    message. *)
Record EventState : Type := mkEventState { Level_ : Level; Message : string }.
Record alert_Event : Type := mkEvent { State : EventState }.

(** [http.Response], of which the service reads the status code and closes
    the body. *)
Record Response : Type := mkResponse { StatusCode : Z }.

Definition http_StatusOK : Z := 200.

(** ** The service and its world *)

Section Service.

Context {D : Type} `{!Diagnostic D} `{!JSONString}.

(** What the service does to the outside, in the order it does it. *)
Inductive Event : Type :=
| http_Post_call (url contentType body : string)
| Body_Close_call
| diag_Error_call (d : D) (msg : string) (err : error).

(** [Service]: the atomic value holds nothing before the first store and a
    [Config] after it, as every store of the package stores a [Config]. *)
Record Service : Type := mkService {
  configValue : option Config;
  diag : D
}.

(** The world of a call: the service the receiver points to, the answer of
    the network to a request given what happened before, and the trace. *)
Record World : Type := mkWorld {
  service : Service;
  transport : list Event -> string -> string -> string -> Response + error;
  trace : list Event
}.

Definition M (A : Type) : Type := World -> outcome A * World.

Definition ret {A : Type} (a : A) : M A := fun w => (Return a, w).

Definition bind {A B : Type} (m : M A) (k : A -> M B) : M B :=
  fun w =>
    match m w with
    | (Return a, w') => k a w'
    | (Panicked p, w') => (Panicked p, w')
    end.

Definition throw {A : Type} (p : panic) : M A := fun w => (Panicked p, w).

Definition lift {A : Type} (x : outcome A) : M A := fun w => (x, w).

(** The world after the events [es] have happened. *)
Definition extend (w : World) (es : list Event) : World :=
  {| service := service w; transport := transport w;
     trace := (trace w ++ es)%list |}.

Definition emit (e : Event) : M unit :=
  fun w => (Return tt, extend w [e]).

Notation "x <- m ;; k" := (bind m (fun x => k))
  (at level 100, m at next level, right associativity).
Notation "m ;;; k" := (bind m (fun _ => k))
  (at level 100, right associativity).

(** [s.configValue.Store(c)] *)
Definition configValue_Store (c : Config) : M unit :=
  fun w => (Return tt,
            {| service := {| configValue := Some c; diag := diag (service w) |};
               transport := transport w; trace := trace w |}).

(** [http.Post(url, contentType, body)]: the request is made and the network
    answers with a response or with an error. *)
Definition http_Post (url contentType body : string) : M (Response + error) :=
  fun w => (Return (transport w (trace w) url contentType body),
            extend w [http_Post_call url contentType body]).

Definition Body_Close : M unit := emit Body_Close_call.

(** [d.Error(msg, err)] *)
Definition diag_Error (d : D) (msg : string) (err : error) : M unit :=
  emit (diag_Error_call d msg err).

(** [NewService(c, d)] *)
Definition NewService (c : Config) (d : D) : Service :=
  {| configValue := Some c; diag := d |}.

Definition Open : M (option error) := ret None.

Definition Close : M (option error) := ret None.

(** [Service.Update] *)
Definition Update (newConfig : list any) : M (option error) :=
  let l := len newConfig in
  if negb (l =? 1)%Z then ret (Some (Errorf_config_count l))
  else
    x <- lift (index newConfig 0) ;;
    match assert_Config x with
    | None => ret (Some (Errorf_config_type x))
    | Some c => configValue_Store c ;;; ret None
    end.

(** [Service.config]: [s.configValue.Load().(Config)], which panics on the
    nil interface of a value that was never stored. *)
Definition config : M Config :=
  fun w =>
    match configValue (service w) with
    | Some c => (Return c, w)
    | None => (Panicked nil_interface_conversion, w)
    end.

(** [Service.Alert] *)
Definition Alert (room : string)
    (tagName tagValue annotationName annotationValue : list string)
    (alertLevel : any) : M (option error) :=
  c <- config ;;
  if negb (Enabled c) then ret (Some (errors_New "service is not enabled"))
  else
    a <- lift (newAlert tagName tagValue annotationName annotationValue alertLevel) ;;
    let postMessage : PostAlertManager := [a] in
    let (data, err) := json_Marshal postMessage in
    match err with
    | Some e => ret (Some e)
    | None =>
        r <- http_Post (URL c) "application/json" data ;;
        match r with
        | inr e => ret (Some e)
        | inl r =>
            Body_Close ;;;
            if negb (StatusCode r =? http_StatusOK)%Z
            then ret (Some (Errorf_response_code (StatusCode r)))
            else ret None
        end
    end.

(** [handler]; its field [s] points to the service of the world. *)
Record handler : Type := mkHandler {
  h_c : HandlerConfig;
  h_diag : D
}.

(** [Service.DefaultHandlerConfig] *)
Definition DefaultHandlerConfig : M HandlerConfig :=
  c <- config ;;
  ret {| hc_Room := Room c;
         AlertManagerTagName := [];
         AlertManagerTagValue := [];
         AlertManagerAnnotationName := [];
         AlertManagerAnnotationValue := [] |}.

(** [Service.Handler] *)
Definition Handler (c : HandlerConfig) (ctx : list keyvalue_T)
    : M (handler * option error) :=
  fun w => (Return ({| h_c := c; h_diag := WithContext (diag (service w)) ctx |}, None), w).

(** [handler.Handle]; the function has no result. *)
Definition Handle (h : handler) (event : alert_Event) : M unit :=
  err <- Alert (hc_Room (h_c h))
               (AlertManagerTagName (h_c h)) (AlertManagerTagValue (h_c h))
               (AlertManagerAnnotationName (h_c h)) (AlertManagerAnnotationValue (h_c h))
               (any_Level (Level_ (State event))) ;;
  match err with
  | Some e => diag_Error (h_diag h) "E! failed to handle event" e
  | None => ret tt
  end.

(** [Service.TestOptions] *)
Definition TestOptions : M any :=
  c <- config ;;
  ret (any_testOptionsPtr (Some
        {| to_Room := Room c;
           to_Message := "test alertmanager message";
           to_AlertManagerTagName := [];
           to_AlertManagerTagValue := [];
           to_AlertManagerAnnotationName := [];
           to_AlertManagerAnnotationValue := [] |})).

(** [Service.Test]; the fields of [options] are read before the call, which
    panics on a nil pointer. *)
Definition Test (o : any) : M (option error) :=
  match assert_testOptionsPtr o with
  | None => ret (Some Errorf_options_type)
  | Some None => throw nil_pointer_dereference
  | Some (Some options) =>
      Alert (to_Room options)
            (to_AlertManagerTagName options) (to_AlertManagerTagValue options)
            (to_AlertManagerAnnotationName options) (to_AlertManagerAnnotationValue options)
            (any_Level Critical)
  end.

(** The number of HTTP requests and of diagnostic error calls in a trace. *)
Definition is_post (e : Event) : bool :=
  match e with http_Post_call _ _ _ => true | _ => false end.

Definition is_diag_Error (e : Event) : bool :=
  match e with diag_Error_call _ _ _ => true | _ => false end.

Definition posts (t : list Event) : nat := length (filter (fun e => is_post e = true) t).

Definition diag_Errors (t : list Event) : nat :=
  length (filter (fun e => is_diag_Error e = true) t).

End Service.

(** The map a run of passes leaves: the pairs are inserted in order, so a
    later pair wins over an earlier one with the same name. *)
Definition insert_pairs (m : gmap string string) (l : list (string * string))
    : gmap string string :=
  foldl (fun m kv => <[fst kv := snd kv]> m) m l.

(** The pairs at the positions [i], ..., [i + n - 1]. *)
Definition pairs_at (names values : list string) (i : Z) (n : nat)
    : list (string * string) :=
  zip (take n (drop (Z.to_nat i) names)) (take n (drop (Z.to_nat i) values)).

(** ** Sample values, on which the definitions are run *)

Definition sample_config : Config :=
  {| Enabled := true; URL := "https://am.example/api"; Room := "ops" |}.

Definition disabled_config : Config :=
  {| Enabled := false; URL := "https://am.example/api"; Room := "ops" |}.

(** A world whose service holds [c], whose network always gives [answer],
    and in which nothing has happened yet. *)
Definition sample_world (c : Config) (answer : Response + error)
    : @World (list keyvalue_T) :=
  {| service := NewService c [];
     transport := fun _ _ _ _ => answer;
     trace := [] |}.

Definition answer_200 : Response + error := inl {| StatusCode := 200 |}.

Definition answer_500 : Response + error := inl {| StatusCode := 500 |}.

Definition world_200 : @World (list keyvalue_T) := sample_world sample_config answer_200.

Definition world_500 : @World (list keyvalue_T) := sample_world sample_config answer_500.

Definition world_disabled : @World (list keyvalue_T) :=
  sample_world disabled_config answer_200.

Definition sample_event : alert_Event :=
  {| State := {| Level_ := Critical; Message := "disk is full" |} |}.

(** The record [Alert] builds for the slices of [sample_handler]. *)
Definition sample_alert : AlertManagerAlert :=
  {| Status := "firing";
     Labels := {[ "severity" := "page" ]};
     Annotations := {[ "summary" := "disk full" ]} |}.

Definition sample_handler : @handler (list keyvalue_T) :=
  {| h_c := {| hc_Room := "ops";
               AlertManagerTagName := ["severity"; "team"];
               AlertManagerTagValue := ["page"; "storage"];
               AlertManagerAnnotationName := ["summary"; "runbook"];
               AlertManagerAnnotationValue := ["disk full"; "wiki"] |};
     h_diag := [] |}.

Definition sample_testOptions : testOptions :=
  {| to_Room := "ops";
     to_Message := "test alertmanager message";
     to_AlertManagerTagName := [];
     to_AlertManagerTagValue := [];
     to_AlertManagerAnnotationName := [];
     to_AlertManagerAnnotationValue := [] |}.

(** Slices in which a name comes twice, and the record built from them. *)
Definition repeated_tagName : list string := ["env"; "team"; "env"; "zone"].

Definition repeated_tagValue : list string := ["dev"; "storage"; "prod"; "eu"].

Definition repeated_annotationName : list string :=
  ["summary"; "runbook"; "summary"; "owner"].

Definition repeated_annotationValue : list string :=
  ["first"; "wiki"; "second"; "ops"].

Definition repeated_alert : AlertManagerAlert :=
  {| Status := "firing";
     Labels := {[ "env" := "prod"; "team" := "storage" ]};
     Annotations := {[ "summary" := "second"; "runbook" := "wiki" ]} |}.

Definition empty_alert (status : string) : AlertManagerAlert :=
  {| Status := status; Labels := ∅; Annotations := ∅ |}.

(** A configuration with another URL, and a world whose network refuses
    the connection. *)
Definition other_config : Config :=
  {| Enabled := true; URL := "https://am2.example/api"; Room := "noc" |}.

Definition world_refused : @World (list keyvalue_T) :=
  sample_world sample_config (inr (transport_error "connection refused")).

(** * Properties *)

(** ** Slices and loops *)

Lemma len_nonneg {A : Type} (s : list A) : 0 <= len s.
Proof. unfold len. lia. Qed.

Lemma index_Return {A : Type} (s : list A) (i : Z) (x : A) :
  index s i = Return x <-> 0 <= i /\ s !! Z.to_nat i = Some x.
Proof.
  unfold index, len. case_bool_decide as Hi.
  - destruct (s !! Z.to_nat i) eqn:E; split.
    + intros [= ->]. split; [lia | reflexivity].
    + intros [_ [= ->]]. reflexivity.
    + discriminate.
    + intros [_ ?]. discriminate.
  - split; [discriminate |].
    intros [H0 Hl]. apply lookup_lt_Some in Hl. lia.
Qed.

Lemma index_in_range {A : Type} (s : list A) (i : Z) :
  0 <= i < len s -> exists x, index s i = Return x /\ s !! Z.to_nat i = Some x.
Proof.
  intros Hi. destruct (lookup_lt_is_Some_2 s (Z.to_nat i)) as [x Hx].
  { unfold len in Hi. lia. }
  exists x. split; [| exact Hx]. apply index_Return. split; [lia | exact Hx].
Qed.

Lemma index_out_of_range_panics {A : Type} (s : list A) (i : Z) :
  ~ 0 <= i < len s -> index s i = Panicked (index_out_of_range i (len s)).
Proof. intros Hi. unfold index. case_bool_decide; [contradiction | reflexivity]. Qed.

Lemma for_from_assign_pair_Return (names values : list string) (n : nat) :
  forall (i : Z) (m : gmap string string),
    0 <= i -> i + Z.of_nat n <= len names -> i + Z.of_nat n <= len values ->
    for_from n i (assign_pair names values) m
    = Return (insert_pairs m (pairs_at names values i n)).
Proof.
  induction n as [| n IH]; intros i m H0 Hn Hv.
  - reflexivity.
  - destruct (index_in_range names i) as (k & Hk & Lk); [lia |].
    destruct (index_in_range values i) as (v & Hv' & Lv); [lia |].
    cbn [for_from]. unfold assign_pair at 1. rewrite Hk, Hv'. cbn [obind].
    rewrite IH by lia.
    unfold pairs_at.
    rewrite (drop_S names k (Z.to_nat i) Lk), (drop_S values v (Z.to_nat i) Lv).
    replace (Z.to_nat (i + 1)) with (S (Z.to_nat i)) by lia.
    reflexivity.
Qed.

Lemma for_from_assign_pair_Panicked (names values : list string) (n : nat) :
  forall (i : Z) (m : gmap string string),
    0 <= i -> (0 < n)%nat ->
    len names < i + Z.of_nat n \/ len values < i + Z.of_nat n ->
    exists p, for_from n i (assign_pair names values) m = Panicked p.
Proof.
  induction n as [| n IH]; intros i m H0 Hpos Hlen; [lia |].
  cbn [for_from]. unfold assign_pair at 1.
  destruct (decide (i < len names)) as [Hin | Hout].
  - destruct (index_in_range names i) as (k & Hk & _); [lia |].
    rewrite Hk. cbn [obind].
    destruct (decide (i < len values)) as [Hiv | Hov].
    + destruct (index_in_range values i) as (v & Hv & _); [lia |].
      rewrite Hv. cbn [obind].
      destruct n as [| n'].
      * lia.
      * apply IH; lia.
    + rewrite index_out_of_range_panics by lia. eexists. reflexivity.
  - rewrite index_out_of_range_panics by lia. eexists. reflexivity.
Qed.

(** The loop over the pairs returns exactly when the bound stays within
    both slices. *)
Lemma for_lt_assign_pair_returns (names values : list string) (bound : Z) :
  (exists m, for_lt bound (assign_pair names values) ∅ = Return m)
  <-> bound <= 0 \/ (bound <= len names /\ bound <= len values).
Proof.
  unfold for_lt. split.
  - intros [m Hm].
    destruct (decide (bound <= 0)) as [| Hb]; [left; assumption | right].
    destruct (decide (bound <= len names /\ bound <= len values)) as [| Hn];
      [assumption | exfalso].
    destruct (for_from_assign_pair_Panicked names values (Z.to_nat bound) 0 ∅)
      as [p Hp]; [lia | lia | lia |].
    rewrite Hp in Hm. discriminate.
  - intros [Hb | [Hn Hv]].
    + replace (Z.to_nat bound) with O by lia. eexists. reflexivity.
    + destruct (decide (bound <= 0)).
      * replace (Z.to_nat bound) with O by lia. eexists. reflexivity.
      * eexists. apply for_from_assign_pair_Return; lia.
Qed.

Lemma insert_pairs_size (l : list (string * string)) :
  forall m : gmap string string,
    (size (insert_pairs m l) <= size m + length l)%nat.
Proof.
  induction l as [| [k v] l IH]; intros m.
  - cbn. lia.
  - change (insert_pairs m ((k, v) :: l)) with (insert_pairs (<[k := v]> m) l).
    specialize (IH (<[k := v]> m)).
    pose proof (map_size_insert k v m) as Hs.
    cbn [length]. destruct (m !! k); cbn [id] in Hs; unfold id in Hs; lia.
Qed.

Lemma pairs_at_length (names values : list string) (i : Z) (n : nat) :
  (length (pairs_at names values i n) <= n)%nat.
Proof.
  unfold pairs_at. rewrite length_zip, !length_take. lia.
Qed.

(** ** The record construction *)

Lemma insert_pairs_union (l : list (string * string)) :
  forall m : gmap string string,
    insert_pairs m l = list_to_map (reverse l) ∪ m.
Proof.
  induction l as [| [k v] l IH]; intros m.
  - cbn. rewrite (left_id_L ∅ (∪)). reflexivity.
  - change (insert_pairs m ((k, v) :: l)) with (insert_pairs (<[k := v]> m) l).
    rewrite IH, reverse_cons, list_to_map_app.
    cbn [list_to_map foldr uncurry].
    rewrite <- (assoc_L (∪)). f_equal.
    rewrite insert_empty, <- insert_union_singleton_l. reflexivity.
Qed.

(** What the label loop computes when the values reach as far as the bound:
    the pairs at the positions below [len(tagName)-1]. *)
Lemma alertLabels_Return (tagName tagValue : list string) :
  len tagName - 1 <= len tagValue ->
  alertLabels tagName tagValue
  = Return (insert_pairs ∅ (pairs_at tagName tagValue 0 (Z.to_nat (len tagName - 1)))).
Proof.
  intros Hv. unfold alertLabels, for_lt.
  destruct (decide (len tagName - 1 <= 0)) as [Hb | Hb].
  - replace (Z.to_nat (len tagName - 1)) with O by lia. reflexivity.
  - apply for_from_assign_pair_Return; lia.
Qed.

(** The labels never have more than [len(tagName)-1] entries. *)
Lemma alertLabels_size (tagName tagValue : list string) (m : gmap string string) :
  alertLabels tagName tagValue = Return m ->
  (size m <= Z.to_nat (len tagName - 1))%nat.
Proof.
  intros Hm.
  assert (Hr : exists m', for_lt (len tagName - 1) (assign_pair tagName tagValue) ∅ = Return m')
    by (exists m; exact Hm).
  apply for_lt_assign_pair_returns in Hr.
  destruct (decide (len tagName - 1 <= 0)) as [Hb | Hb].
  - unfold alertLabels, for_lt in Hm.
    replace (Z.to_nat (len tagName - 1)) with O in * by lia.
    cbn in Hm. injection Hm as <-. rewrite map_size_empty. lia.
  - rewrite alertLabels_Return in Hm by lia. injection Hm as <-.
    pose proof (insert_pairs_size
                  (pairs_at tagName tagValue 0 (Z.to_nat (len tagName - 1))) ∅) as Hs.
    pose proof (pairs_at_length tagName tagValue 0 (Z.to_nat (len tagName - 1))) as Hl.
    rewrite map_size_empty in Hs. lia.
Qed.

(** The record is built exactly when the bound of the two loops, which is
    [len(tagName)-1] for both, stays within the three other slices. *)
Lemma newAlert_returns (tagName tagValue annotationName annotationValue : list string)
    (alertLevel : any) :
  (exists a, newAlert tagName tagValue annotationName annotationValue alertLevel = Return a)
  <-> len tagName - 1 <= 0
      \/ (len tagName - 1 <= len tagValue
          /\ len tagName - 1 <= len annotationName
          /\ len tagName - 1 <= len annotationValue).
Proof.
  pose proof (for_lt_assign_pair_returns tagName tagValue (len tagName - 1)) as HL.
  pose proof (for_lt_assign_pair_returns annotationName annotationValue (len tagName - 1)) as HA.
  unfold newAlert, alertLabels, alertAnnotations. split.
  - intros [a Ha].
    destruct (for_lt (len tagName - 1) (assign_pair tagName tagValue) ∅) as [ls |] eqn:EL;
      [| discriminate].
    destruct (for_lt (len tagName - 1) (assign_pair annotationName annotationValue) ∅)
      as [ans |] eqn:EA; [| discriminate].
    assert (H1 : len tagName - 1 <= 0
                 \/ len tagName - 1 <= len tagName /\ len tagName - 1 <= len tagValue)
      by (apply HL; eauto).
    assert (H2 : len tagName - 1 <= 0
                 \/ len tagName - 1 <= len annotationName
                    /\ len tagName - 1 <= len annotationValue)
      by (apply HA; eauto).
    lia.
  - intros Hlen.
    destruct (proj2 HL) as [ls ->]; [lia |].
    destruct (proj2 HA) as [ans ->]; [lia |].
    cbn. eexists. reflexivity.
Qed.

(** The status of a record that is built is the one the level decides. *)
Lemma newAlert_Status (tagName tagValue annotationName annotationValue : list string)
    (alertLevel : any) (a : AlertManagerAlert) :
  newAlert tagName tagValue annotationName annotationValue alertLevel = Return a ->
  Status a = alertStatus alertLevel.
Proof.
  unfold newAlert. intros Ha.
  destruct (alertLabels tagName tagValue); [| discriminate].
  destruct (alertAnnotations tagName annotationName annotationValue); [| discriminate].
  cbn in Ha. injection Ha as <-. reflexivity.
Qed.

(** C1: with one label pair and one annotation pair the record has no label
    entry and no annotation entry, where the claim promises one of each with
    [names[0] -> values[0]] present: the bound [len(tagName)-1] of the loops
    leaves the last pair out. *)
Theorem C1_last_pair_dropped :
  exists a : AlertManagerAlert,
    newAlert ["severity"] ["page"] ["summary"] ["disk full"] (any_Level Critical)
    = Return a
    /\ size (Labels a) = 0%nat /\ Labels a !! "severity" = None
    /\ size (Annotations a) = 0%nat /\ Annotations a !! "summary" = None.
Proof.
  exists {| Status := "firing"; Labels := ∅; Annotations := ∅ |}.
  split; [reflexivity |]. cbn [Labels Annotations].
  rewrite map_size_empty, !lookup_empty. auto.
Qed.

(** For slices of equal length N >= 1 the labels have fewer than N
    entries, whatever the names and the values are. *)
Lemma alertLabels_fewer_than_N (tagName tagValue : list string) (m : gmap string string) :
  len tagName = len tagValue -> 1 <= len tagName ->
  alertLabels tagName tagValue = Return m ->
  (size m < length tagName)%nat.
Proof.
  intros Heq Hpos Hm. apply alertLabels_size in Hm. unfold len in *. lia.
Qed.

Lemma insert_pairs_NoDup (l : list (string * string)) :
  NoDup (fst <$> l) -> insert_pairs ∅ l = list_to_map l.
Proof.
  intros Hnd. rewrite insert_pairs_union, (right_id_L ∅ (∪)).
  apply list_to_map_proper.
  - rewrite fmap_reverse, reverse_Permutation. exact Hnd.
  - apply reverse_Permutation.
Qed.

(** With names that are pairwise different, the labels hold the pair of
    every position below [len(tagName)-1] and nothing under the name of the
    last position. *)
Lemma alertLabels_lookup (tagName tagValue : list string) (m : gmap string string) :
  NoDup tagName ->
  alertLabels tagName tagValue = Return m ->
  forall (i : nat) (k : string),
    tagName !! i = Some k ->
    m !! k = if decide (Z.of_nat i < len tagName - 1) then tagValue !! i else None.
Proof.
  intros Hnd Hm i k Hk.
  assert (Hr : exists m', for_lt (len tagName - 1) (assign_pair tagName tagValue) ∅ = Return m')
    by (exists m; exact Hm).
  apply for_lt_assign_pair_returns in Hr.
  destruct (decide (len tagName - 1 <= 0)) as [Hb | Hb].
  - unfold alertLabels, for_lt in Hm.
    replace (Z.to_nat (len tagName - 1)) with O in Hm by lia.
    cbn in Hm. injection Hm as <-. rewrite lookup_empty.
    case_decide; [lia | reflexivity].
  - assert (Hv : len tagName - 1 <= len tagValue) by lia.
    rewrite (alertLabels_Return tagName tagValue Hv) in Hm. injection Hm as <-.
    set (n := Z.to_nat (len tagName - 1)).
    change (pairs_at tagName tagValue 0 n)
      with (zip (take n tagName) (take n tagValue)).
    assert (Hfst : fst <$> zip (take n tagName) (take n tagValue) = take n tagName).
    { apply fst_zip. rewrite !length_take. unfold len in *. lia. }
    assert (Hnd' : NoDup (take n tagName)).
    { eapply sublist_NoDup; [exact Hnd | apply sublist_take]. }
    rewrite insert_pairs_NoDup by (rewrite Hfst; exact Hnd').
    case_decide as Hi.
    + assert (Hin : (i < n)%nat) by (subst n; lia).
      destruct (lookup_lt_is_Some_2 tagValue i) as [v Hvi].
      { unfold len in *. lia. }
      rewrite Hvi. apply elem_of_list_to_map; [rewrite Hfst; exact Hnd' |].
      apply list_elem_of_lookup. exists i.
      rewrite lookup_zip_with. rewrite !lookup_take_lt by exact Hin.
      rewrite Hk, Hvi. reflexivity.
    + apply not_elem_of_list_to_map. rewrite Hfst.
      intros Hel. apply elem_of_take in Hel as (j & Hj & Hjn).
      assert (i = j) by exact (NoDup_lookup tagName i j k Hnd Hk Hj).
      subst n. lia.
Qed.

(** C2: two label pairs and no annotation pair, an input the interface
    accepts and whose paired slices have equal lengths; the annotation loop
    runs to the bound of the labels and reads [annotationName[0]] of an empty
    slice. *)
Theorem C2_annotation_loop_out_of_range :
  alertLabels ["a"; "b"] ["x"; "y"] = Return {[ "a" := "x" ]}
  /\ alertAnnotations ["a"; "b"] [] [] = Panicked (index_out_of_range 0 0)
  /\ newAlert ["a"; "b"] ["x"; "y"] [] [] (any_Level Critical)
     = Panicked (index_out_of_range 0 0).
Proof.
  split; [| split]; reflexivity.
Qed.

(** C3: for every severity level, a record that is built has the status
    resolved exactly when the level is OK, and firing for every other
    level. *)
Theorem C3_status_two_way (l : Level)
    (tagName tagValue annotationName annotationValue : list string)
    (a : AlertManagerAlert) :
  newAlert tagName tagValue annotationName annotationValue (any_Level l) = Return a ->
  (Status a = "resolved" <-> l = OK) /\ (l <> OK -> Status a = "firing").
Proof.
  intros Ha. apply newAlert_Status in Ha. rewrite Ha.
  unfold alertStatus, any_eq_Level.
  destruct l; cbn; repeat split; intros; try reflexivity; try discriminate;
    try congruence.
Qed.

(** ** The wire form of a map *)

#[local] Instance key_le_total : Total key_le.
Proof. intros x y. unfold key_le. apply String.leb_total. Qed.

Lemma sorted_entries_Sorted (m : gmap string string) :
  Sorted key_le (sorted_entries m).
Proof. unfold sorted_entries. apply Sorted_merge_sort. apply _. Qed.

Lemma sorted_entries_lookup (m : gmap string string) (k v : string) :
  (k, v) ∈ sorted_entries m <-> m !! k = Some v.
Proof.
  unfold sorted_entries. rewrite merge_sort_Permutation.
  apply elem_of_map_to_list.
Qed.

Lemma sorted_entries_NoDup (m : gmap string string) :
  NoDup (fst <$> sorted_entries m).
Proof.
  unfold sorted_entries. rewrite merge_sort_Permutation.
  apply NoDup_fst_map_to_list.
Qed.

(** The fields of the object written for a map are its entries. *)
Lemma json_of_map_fields (m : gmap string string) :
  exists fields : list (string * json),
    json_of_map m = JObject fields
    /\ forall (k : string) (j : json),
         (k, j) ∈ fields <-> exists v, j = JString v /\ m !! k = Some v.
Proof.
  eexists. split; [reflexivity |].
  intros k j. rewrite list_elem_of_fmap. split.
  - intros [[k' v] [[= -> ->] Hin]]. exists v. split; [reflexivity |].
    apply sorted_entries_lookup. exact Hin.
  - intros [v [-> Hv]]. exists (k, v). split; [reflexivity |].
    apply sorted_entries_lookup. exact Hv.
Qed.

(** ** The service *)

Section ServiceProperties.

Context {D : Type} `{!Diagnostic D} `{!JSONString}.

Implicit Types (w : @World D) (c : Config) (a : AlertManagerAlert).

Lemma extend_extend w (es1 es2 : list (@Event D)) :
  extend (extend w es1) es2 = extend w (es1 ++ es2).
Proof. unfold extend. cbn. rewrite <- (assoc_L (++)). reflexivity. Qed.

Lemma diag_Errors_app (t1 t2 : list (@Event D)) :
  diag_Errors (t1 ++ t2) = (diag_Errors t1 + diag_Errors t2)%nat.
Proof. unfold diag_Errors. rewrite filter_app, length_app. reflexivity. Qed.

Lemma posts_app (t1 t2 : list (@Event D)) :
  posts (t1 ++ t2) = (posts t1 + posts t2)%nat.
Proof. unfold posts. rewrite filter_app, length_app. reflexivity. Qed.

Lemma posts_cons (e : @Event D) (t : list Event) :
  posts (e :: t) = ((if is_post e then 1 else 0) + posts t)%nat.
Proof.
  unfold posts. rewrite filter_cons. destruct (is_post e).
  - rewrite decide_True by reflexivity. reflexivity.
  - rewrite decide_False by discriminate. reflexivity.
Qed.

Lemma diag_Errors_cons (e : @Event D) (t : list Event) :
  diag_Errors (e :: t) = ((if is_diag_Error e then 1 else 0) + diag_Errors t)%nat.
Proof.
  unfold diag_Errors. rewrite filter_cons. destruct (is_diag_Error e).
  - rewrite decide_True by reflexivity. reflexivity.
  - rewrite decide_False by discriminate. reflexivity.
Qed.

(** *** The configuration cell *)

Lemma config_stored w c :
  configValue (service w) = Some c -> config w = (Return c, w).
Proof. intros Hc. unfold config. rewrite Hc. reflexivity. Qed.

Lemma Update_count (newConfig : list any) w :
  len newConfig <> 1 ->
  Update newConfig w = (Return (Some (Errorf_config_count (len newConfig))), w).
Proof.
  intros Hl. unfold Update. rewrite (proj2 (Z.eqb_neq _ _) Hl). reflexivity.
Qed.

Lemma Update_single (x : any) w :
  Update [x] w
  = match assert_Config x with
    | Some c =>
        (Return None,
         {| service := {| configValue := Some c; diag := diag (service w) |};
            transport := transport w; trace := trace w |})
    | None => (Return (Some (Errorf_config_type x)), w)
    end.
Proof. destruct x; reflexivity. Qed.

(** [Update] returns on every input: it does not panic. *)
Lemma Update_returns (newConfig : list any) w :
  exists (r : option error) (w' : World), Update newConfig w = (Return r, w').
Proof.
  destruct newConfig as [| x [| y rest]].
  - eexists _, _. apply Update_count. unfold len. cbn. lia.
  - rewrite Update_single. destruct (assert_Config x); eexists _, _; reflexivity.
  - eexists _, _. apply Update_count. unfold len. cbn [length]. lia.
Qed.

(** *** The five ways through [Alert] *)

Section AlertCases.

Variables (room : string)
          (tagName tagValue annotationName annotationValue : list string)
          (alertLevel : any).

Local Abbreviation run :=
  (@Alert D _ room tagName tagValue annotationName annotationValue alertLevel).
Local Abbreviation build :=
  (newAlert tagName tagValue annotationName annotationValue alertLevel).

Lemma Alert_never_stored w :
  configValue (service w) = None -> run w = (Panicked nil_interface_conversion, w).
Proof.
  intros Hc. unfold Alert, bind, config. rewrite Hc. reflexivity.
Qed.

Lemma Alert_disabled w c :
  configValue (service w) = Some c -> Enabled c = false ->
  run w = (Return (Some (errors_New "service is not enabled")), w).
Proof.
  intros Hc He. unfold Alert, bind, config. rewrite Hc, He. reflexivity.
Qed.

Lemma Alert_build_panics w c (p : panic) :
  configValue (service w) = Some c -> Enabled c = true ->
  build = Panicked p ->
  run w = (Panicked p, w).
Proof.
  intros Hc He Hb. unfold Alert, bind, config, lift.
  rewrite Hc, He. cbn. rewrite Hb. reflexivity.
Qed.

Lemma Alert_transport_error w c a (e : error) :
  configValue (service w) = Some c -> Enabled c = true ->
  build = Return a ->
  transport w (trace w) (URL c) "application/json" (fst (json_Marshal [a])) = inr e ->
  run w = (Return (Some e),
           extend w [http_Post_call (URL c) "application/json" (fst (json_Marshal [a]))]).
Proof.
  intros Hc He Hb Ht. unfold Alert, bind, config, lift.
  rewrite Hc, He. cbn. rewrite Hb. cbn in *. unfold http_Post. rewrite Ht.
  reflexivity.
Qed.

Lemma Alert_response w c a (r : Response) :
  configValue (service w) = Some c -> Enabled c = true ->
  build = Return a ->
  transport w (trace w) (URL c) "application/json" (fst (json_Marshal [a])) = inl r ->
  run w = (Return (if bool_decide (StatusCode r = http_StatusOK) then None
                   else Some (Errorf_response_code (StatusCode r))),
           extend w [http_Post_call (URL c) "application/json" (fst (json_Marshal [a]));
                     Body_Close_call]).
Proof.
  intros Hc He Hb Ht. unfold Alert, bind, config, lift.
  rewrite Hc, He. cbn. rewrite Hb. cbn in *. unfold http_Post. rewrite Ht.
  unfold Body_Close, emit. rewrite extend_extend. cbn [app].
  case_bool_decide as Hs.
  - rewrite (proj2 (Z.eqb_eq _ _) Hs). reflexivity.
  - rewrite (proj2 (Z.eqb_neq _ _) Hs). reflexivity.
Qed.

(** [Alert] only adds to the trace, at most one request and no diagnostic
    call, and leaves the service as it is. *)
Lemma Alert_frame w :
  exists es : list Event,
    snd (run w) = (if decide (es = []) then w else extend w es)
    /\ diag_Errors es = 0%nat /\ (posts es <= 1)%nat.
Proof.
  destruct (configValue (service w)) as [c |] eqn:Hc.
  - destruct (Enabled c) eqn:He.
    + destruct build as [a | p] eqn:Hb.
      * destruct (transport w (trace w) (URL c) "application/json" (fst (json_Marshal [a])))
          as [r | e] eqn:Ht.
        -- rewrite (Alert_response w c a r Hc He Hb Ht).
           exists [http_Post_call (URL c) "application/json" (fst (json_Marshal [a]));
                   Body_Close_call].
           split; [| split]; [reflexivity | rewrite !diag_Errors_cons; reflexivity | rewrite !posts_cons; cbn; lia].
        -- rewrite (Alert_transport_error w c a e Hc He Hb Ht).
           exists [http_Post_call (URL c) "application/json" (fst (json_Marshal [a]))].
           split; [| split]; [reflexivity | rewrite !diag_Errors_cons; reflexivity | rewrite !posts_cons; cbn; lia].
      * rewrite (Alert_build_panics w c p Hc He Hb).
        exists []. split; [| split]; [reflexivity | reflexivity | cbn; lia].
    + rewrite (Alert_disabled w c Hc He).
      exists []. split; [| split]; [reflexivity | reflexivity | cbn; lia].
  - rewrite (Alert_never_stored w Hc).
    exists []. split; [| split]; [reflexivity | reflexivity | cbn; lia].
Qed.

Lemma Alert_diag_Errors w :
  diag_Errors (trace (snd (run w))) = diag_Errors (trace w).
Proof.
  destruct (Alert_frame w) as (es & Hw & Hd & _). rewrite Hw.
  destruct (decide (es = [])); [reflexivity |].
  unfold extend. cbn [trace]. rewrite diag_Errors_app. lia.
Qed.

End AlertCases.

(** *** The claims about the service *)

(** C4: [Update] with no element or with two or more elements returns the
    error of the count; with one element that is not a [Config] it returns
    the error of the type; with one [Config] it returns nil and [config]
    gives that very element right afterwards. *)
Theorem C4_Update_outcomes (newConfig : list any) w :
  (len newConfig = 0 \/ 2 <= len newConfig ->
     fst (Update newConfig w) = Return (Some (Errorf_config_count (len newConfig))))
  /\ (forall x : any, newConfig = [x] -> (forall c, x <> any_Config c) ->
        fst (Update newConfig w) = Return (Some (Errorf_config_type x)))
  /\ (forall c, newConfig = [any_Config c] ->
        exists w' : World,
          Update newConfig w = (Return None, w') /\ config w' = (Return c, w')).
Proof.
  split; [| split].
  - intros Hl. rewrite Update_count by lia. reflexivity.
  - intros x -> Hx. rewrite Update_single.
    destruct x; try reflexivity. exfalso. eapply Hx. reflexivity.
  - intros c ->. rewrite Update_single. cbn [assert_Config].
    eexists. split; [reflexivity |]. apply config_stored. reflexivity.
Qed.

(** C10: when [Update] returns an error the world, and with it the stored
    configuration, is the one from before the call: [config] gives what it
    gave before.  The error is one of the two the function creates. *)
Theorem C10_failed_Update_keeps_config (newConfig : list any) w (e : error) (w' : World) :
  Update newConfig w = (Return (Some e), w') ->
  w' = w
  /\ fst (config w') = fst (config w)
  /\ (e = Errorf_config_count (len newConfig) /\ len newConfig <> 1
      \/ exists x : any, newConfig = [x] /\ e = Errorf_config_type x
                         /\ forall c, x <> any_Config c).
Proof.
  intros HU.
  assert (Hcases : w' = w
            /\ (e = Errorf_config_count (len newConfig) /\ len newConfig <> 1
                \/ exists x : any, newConfig = [x] /\ e = Errorf_config_type x
                                   /\ forall c, x <> any_Config c)).
  { destruct newConfig as [| x [| y rest]].
    - rewrite Update_count in HU by (unfold len; cbn; lia).
      injection HU as <- <-. split; [reflexivity |]. left.
      split; [reflexivity | unfold len; cbn; lia].
    - rewrite Update_single in HU.
      destruct (assert_Config x) as [c |] eqn:Hx; [discriminate |].
      injection HU as <- <-. split; [reflexivity |]. right.
      exists x. split; [reflexivity |]. split; [reflexivity |].
      intros c ->. discriminate.
    - rewrite Update_count in HU by (unfold len; cbn [length]; lia).
      injection HU as <- <-. split; [reflexivity |]. left.
      split; [reflexivity | unfold len; cbn [length]; lia]. }
  destruct Hcases as [-> Hwhy]. auto.
Qed.

(** C5: with a stored configuration that is not enabled, [Alert] returns
    the error of the disabled service at once and leaves the world as it
    was: no HTTP request is made. *)
Theorem C5_disabled_no_request c (room : string)
    (tagName tagValue annotationName annotationValue : list string)
    (alertLevel : any) w :
  configValue (service w) = Some c -> Enabled c = false ->
  Alert room tagName tagValue annotationName annotationValue alertLevel w
  = (Return (Some (errors_New "service is not enabled")), w)
  /\ posts (trace (snd (Alert room tagName tagValue annotationName annotationValue
                             alertLevel w)))
     = posts (trace w).
Proof.
  intros Hc He.
  rewrite (Alert_disabled room tagName tagValue annotationName annotationValue
             alertLevel w c Hc He).
  split; reflexivity.
Qed.

(** C6: when the request is answered with a response, [Alert] returns nil
    for the status code 200 and the error that carries the code for every
    other status code. *)
Theorem C6_response_code c a (r : Response) (room : string)
    (tagName tagValue annotationName annotationValue : list string)
    (alertLevel : any) w :
  configValue (service w) = Some c -> Enabled c = true ->
  newAlert tagName tagValue annotationName annotationValue alertLevel = Return a ->
  transport w (trace w) (URL c) "application/json" (fst (json_Marshal [a])) = inl r ->
  (StatusCode r = 200 ->
     fst (Alert room tagName tagValue annotationName annotationValue alertLevel w)
     = Return None)
  /\ (StatusCode r <> 200 ->
        fst (Alert room tagName tagValue annotationName annotationValue alertLevel w)
        = Return (Some (Errorf_response_code (StatusCode r)))).
Proof.
  intros Hc He Hb Ht.
  rewrite (Alert_response room tagName tagValue annotationName annotationValue
             alertLevel w c a r Hc He Hb Ht).
  cbn [fst]. unfold http_StatusOK.
  split; intros Hs; case_bool_decide; first [reflexivity | contradiction].
Qed.

(** C7: [Handle] returns nothing.  When the dispatch returns nil, no
    diagnostic error call is made; when it returns an error, that error is
    handed to the diagnostic of the handler in exactly one call and
    [Handle] still returns normally. *)
Theorem C7_Handle_swallows (h : handler) (event : alert_Event) w :
  let dispatch :=
    Alert (hc_Room (h_c h))
          (AlertManagerTagName (h_c h)) (AlertManagerTagValue (h_c h))
          (AlertManagerAnnotationName (h_c h)) (AlertManagerAnnotationValue (h_c h))
          (any_Level (Level_ (State event))) in
  (forall w' : World, dispatch w = (Return None, w') ->
     Handle h event w = (Return tt, w')
     /\ diag_Errors (trace w') = diag_Errors (trace w))
  /\ (forall (e : error) (w' : World), dispatch w = (Return (Some e), w') ->
        Handle h event w
        = (Return tt,
           extend w' [diag_Error_call (h_diag h) "E! failed to handle event" e])
        /\ diag_Errors (trace (snd (Handle h event w)))
           = S (diag_Errors (trace w))).
Proof.
  intros dispatch.
  pose proof (Alert_diag_Errors (hc_Room (h_c h))
                (AlertManagerTagName (h_c h)) (AlertManagerTagValue (h_c h))
                (AlertManagerAnnotationName (h_c h))
                (AlertManagerAnnotationValue (h_c h))
                (any_Level (Level_ (State event))) w) as Hd.
  fold dispatch in Hd.
  split.
  - intros w' Hrun. rewrite Hrun in Hd. cbn [snd] in Hd.
    split; [| exact Hd].
    unfold Handle, bind. fold dispatch. rewrite Hrun. reflexivity.
  - intros e w' Hrun. rewrite Hrun in Hd. cbn [snd] in Hd.
    assert (HH : Handle h event w
                 = (Return tt,
                    extend w' [diag_Error_call (h_diag h) "E! failed to handle event" e])).
    { unfold Handle, bind. fold dispatch. rewrite Hrun. reflexivity. }
    split; [exact HH |].
    rewrite HH. unfold extend. cbn [snd trace].
    rewrite diag_Errors_app, diag_Errors_cons, Hd. cbn. lia.
Qed.

(** [Handler] returns a handler and a nil error on every input; the
    handler holds the configuration it was given and the diagnostic of the
    service with the context added. *)
Lemma Handler_never_fails (hc : HandlerConfig) (ctx : list keyvalue_T) w :
  Handler hc ctx w
  = (Return ({| h_c := hc; h_diag := WithContext (diag (service w)) ctx |}, None), w).
Proof. reflexivity. Qed.

(** A panic of the dispatch is not a result: it passes through [Handle],
    which has no recover, and no diagnostic call is made. *)
Lemma Handle_dispatch_panics (h : handler) (event : alert_Event) w (p : panic)
    (w' : World) :
  Alert (hc_Room (h_c h))
        (AlertManagerTagName (h_c h)) (AlertManagerTagValue (h_c h))
        (AlertManagerAnnotationName (h_c h)) (AlertManagerAnnotationValue (h_c h))
        (any_Level (Level_ (State event))) w = (Panicked p, w') ->
  Handle h event w = (Panicked p, w').
Proof. intros Hrun. unfold Handle, bind. rewrite Hrun. reflexivity. Qed.

(** [Alert] returns, with nil or with an error, exactly when a configuration
    is stored and either it is not enabled or the record is built. *)
Lemma Alert_returns (room : string)
    (tagName tagValue annotationName annotationValue : list string)
    (alertLevel : any) w :
  (exists (r : option error) (w' : World),
     Alert room tagName tagValue annotationName annotationValue alertLevel w
     = (Return r, w'))
  <-> exists c, configValue (service w) = Some c
                /\ (Enabled c = false
                    \/ exists a, newAlert tagName tagValue annotationName
                                          annotationValue alertLevel = Return a).
Proof.
  split.
  - intros (r & w' & Hrun).
    destruct (configValue (service w)) as [c |] eqn:Hc.
    + exists c. split; [reflexivity |].
      destruct (Enabled c) eqn:He; [right | left; reflexivity].
      destruct (newAlert tagName tagValue annotationName annotationValue alertLevel)
        as [a | p] eqn:Hb; [exists a; reflexivity |].
      rewrite (Alert_build_panics room tagName tagValue annotationName annotationValue
                 alertLevel w c p Hc He Hb) in Hrun.
      discriminate.
    + rewrite (Alert_never_stored room tagName tagValue annotationName annotationValue
                 alertLevel w Hc) in Hrun.
      discriminate.
  - intros (c & Hc & [He | [a Hb]]).
    + eexists _, _. apply (Alert_disabled _ _ _ _ _ _ w c Hc He).
    + destruct (Enabled c) eqn:He.
      * destruct (transport w (trace w) (URL c) "application/json"
                    (fst (json_Marshal [a]))) as [r | e] eqn:Ht.
        -- eexists _, _. apply (Alert_response _ _ _ _ _ _ w c a r Hc He Hb Ht).
        -- eexists _, _. apply (Alert_transport_error _ _ _ _ _ _ w c a e Hc He Hb Ht).
      * eexists _, _. apply (Alert_disabled _ _ _ _ _ _ w c Hc He).
Qed.

(** A nil pointer of the right type passes the assertion and panics when
    its fields are read. *)
Lemma Test_nil_pointer w :
  Test (any_testOptionsPtr None) w = (Panicked nil_pointer_dereference, w).
Proof. reflexivity. Qed.

(** C8: [Test] returns the error of the options type when its argument is
    not a pointer to [testOptions]; given such options it is the call of
    [Alert] on their fields with the level Critical, whose result it returns
    as it is, and the record of that call has the status firing. *)
Theorem C8_Test_outcomes (o : any) w :
  ((forall p, o <> any_testOptionsPtr p) ->
     Test o w = (Return (Some Errorf_options_type), w))
  /\ (forall options : testOptions, o = any_testOptionsPtr (Some options) ->
        Test o w
        = Alert (to_Room options)
                (to_AlertManagerTagName options) (to_AlertManagerTagValue options)
                (to_AlertManagerAnnotationName options)
                (to_AlertManagerAnnotationValue options)
                (any_Level Critical) w
        /\ forall a,
             newAlert (to_AlertManagerTagName options) (to_AlertManagerTagValue options)
                      (to_AlertManagerAnnotationName options)
                      (to_AlertManagerAnnotationValue options)
                      (any_Level Critical) = Return a ->
             Status a = "firing").
Proof.
  split.
  - intros Ho. destruct o; try reflexivity. exfalso. eapply Ho. reflexivity.
  - intros options ->. split; [reflexivity |].
    intros a Ha. apply newAlert_Status in Ha. rewrite Ha. reflexivity.
Qed.

(** *** The text of the body *)

Lemma append_assoc (x y z : string) : (x +:+ y) +:+ z = x +:+ (y +:+ z).
Proof.
  induction x as [| b x IH]; [reflexivity |].
  change (String b ((x +:+ y) +:+ z) = String b (x +:+ (y +:+ z))).
  rewrite IH. reflexivity.
Qed.

Lemma concat_head_append (sep p q : string) (l : list string) :
  String.concat sep ((p +:+ q) :: l) = p +:+ String.concat sep (q :: l).
Proof.
  destruct l as [| z l]; cbn [String.concat]; [reflexivity |].
  apply append_assoc.
Qed.

(** The loop that joins the parts writes what [String.concat] writes. *)
Lemma join_concat (sep : string) (l : list string) :
  join sep l = String.concat sep l.
Proof.
  destruct l as [| x r]; [reflexivity |]. unfold join.
  revert x. induction r as [| y r IH]; intros x; [reflexivity |].
  cbn [fold_left]. rewrite IH.
  rewrite concat_head_append, concat_head_append. reflexivity.
Qed.

Lemma render_json_of_map (m : gmap string string) :
  render (json_of_map m) = object_text (sorted_entries m).
Proof.
  unfold json_of_map, object_text. cbn [render].
  rewrite join_concat, map_map. reflexivity.
Qed.

Lemma render_batch_of_one a :
  fst (json_Marshal [a])
  = "[{" +:+ encodeString "Status" +:+ ":" +:+ encodeString (Status a) +:+ ","
         +:+ encodeString "Labels" +:+ ":" +:+ object_text (sorted_entries (Labels a))
         +:+ ","
         +:+ encodeString "Annotations" +:+ ":"
         +:+ object_text (sorted_entries (Annotations a)) +:+ "}]".
Proof.
  unfold json_Marshal, json_of_PostAlertManager, json_of_AlertManagerAlert.
  cbn [fst map render join fold_left]. cbn [snd].
  rewrite !render_json_of_map. cbn [render].
  rewrite !append_assoc. reflexivity.
Qed.

(** C9: for an encoder that writes the strings without special characters
    between quotes, as [encoding/json] does, the body of the request is,
    byte for byte, an array of one object with the members Status, Labels
    and Annotations in this spelling and order.  The status is the word
    firing or resolved; the Labels and Annotations objects hold exactly the
    entries of the two maps, each name once, in ascending order of the names,
    every value a string.  No value of the fixed-field request type is
    written as this text. *)
Theorem C9_wire_format c a (room : string)
    (tagName tagValue annotationName annotationValue : list string)
    (alertLevel : any) w :
  (forall s : string, plain s = true -> encodeString s = in_quotes s) ->
  configValue (service w) = Some c -> Enabled c = true ->
  newAlert tagName tagValue annotationName annotationValue alertLevel = Return a ->
  exists (labels annotations : list (string * string)) (rest : list Event),
    trace (snd (Alert room tagName tagValue annotationName annotationValue alertLevel w))
    = (trace w ++ http_Post_call (URL c) "application/json"
                    (wire_body (Status a) labels annotations) :: rest)%list
    /\ posts rest = 0%nat
    /\ (Status a = "firing" \/ Status a = "resolved")
    /\ (forall k v : string, (k, v) ∈ labels <-> Labels a !! k = Some v)
    /\ NoDup (fst <$> labels)
    /\ Sorted (fun x y : string * string => String.leb (fst x) (fst y) = true) labels
    /\ (forall k v : string, (k, v) ∈ annotations <-> Annotations a !! k = Some v)
    /\ NoDup (fst <$> annotations)
    /\ Sorted (fun x y : string * string => String.leb (fst x) (fst y) = true)
              annotations
    /\ (forall r : AlertmanagerRequest,
          wire_body (Status a) labels annotations
          <> render (JArray [json_of_AlertmanagerRequest r])).
Proof.
  intros Hplain Hc He Hb.
  assert (Hstatus : Status a = "firing" \/ Status a = "resolved").
  { rewrite (newAlert_Status _ _ _ _ _ _ Hb). unfold alertStatus.
    destruct (any_eq_Level alertLevel OK); auto. }
  assert (Hbody : fst (json_Marshal [a])
                  = wire_body (Status a) (sorted_entries (Labels a))
                              (sorted_entries (Annotations a))).
  { rewrite render_batch_of_one. unfold wire_body.
    rewrite (Hplain "Status" eq_refl), (Hplain "Labels" eq_refl),
      (Hplain "Annotations" eq_refl).
    destruct Hstatus as [-> | ->]; rewrite Hplain by reflexivity; reflexivity. }
  assert (Hother : forall r : AlertmanagerRequest,
            wire_body (Status a) (sorted_entries (Labels a))
                      (sorted_entries (Annotations a))
            <> render (JArray [json_of_AlertmanagerRequest r])).
  { intros r. unfold wire_body, json_of_AlertmanagerRequest.
    cbn [render map join fold_left fst snd].
    rewrite (Hplain "status" eq_refl). cbn. discriminate. }
  exists (sorted_entries (Labels a)), (sorted_entries (Annotations a)).
  destruct (transport w (trace w) (URL c) "application/json" (fst (json_Marshal [a])))
    as [r | e] eqn:Ht.
  - exists [Body_Close_call].
    rewrite (Alert_response room tagName tagValue annotationName annotationValue
               alertLevel w c a r Hc He Hb Ht).
    cbn [snd]. unfold extend. cbn [trace]. rewrite Hbody.
    split; [reflexivity |]. split; [reflexivity |]. split; [exact Hstatus |].
    split; [intros k v; apply sorted_entries_lookup |].
    split; [apply sorted_entries_NoDup |].
    split; [apply sorted_entries_Sorted |].
    split; [intros k v; apply sorted_entries_lookup |].
    split; [apply sorted_entries_NoDup |].
    split; [apply sorted_entries_Sorted | exact Hother].
  - exists [].
    rewrite (Alert_transport_error room tagName tagValue annotationName annotationValue
               alertLevel w c a e Hc He Hb Ht).
    cbn [snd]. unfold extend. cbn [trace]. rewrite Hbody.
    split; [reflexivity |]. split; [reflexivity |]. split; [exact Hstatus |].
    split; [intros k v; apply sorted_entries_lookup |].
    split; [apply sorted_entries_NoDup |].
    split; [apply sorted_entries_Sorted |].
    split; [intros k v; apply sorted_entries_lookup |].
    split; [apply sorted_entries_NoDup |].
    split; [apply sorted_entries_Sorted | exact Hother].
Qed.

End ServiceProperties.

(** * Further properties of the record construction *)

Lemma insert_pairs_snoc (m : gmap string string) (l : list (string * string))
    (k v : string) :
  insert_pairs m (l ++ [(k, v)]) = <[k := v]> (insert_pairs m l).
Proof. unfold insert_pairs. rewrite foldl_snoc. reflexivity. Qed.

(** A name keeps the value of its last pair. *)
Lemma insert_pairs_lookup_last (l : list (string * string)) :
  forall (m : gmap string string) (i : nat) (k v : string),
    l !! i = Some (k, v) ->
    (forall (j : nat) (v' : string), (i < j)%nat -> l !! j <> Some (k, v')) ->
    insert_pairs m l !! k = Some v.
Proof.
  induction l as [| [k0 v0] l IH] using rev_ind; intros m i k v Hi Hlast.
  - rewrite lookup_nil in Hi. discriminate.
  - rewrite insert_pairs_snoc.
    apply lookup_snoc_Some in Hi as [[Hlt Hi] | [Hlen Heq]].
    + assert (Hne : k0 <> k).
      { intros ->. apply (Hlast (length l) v0 Hlt).
        apply lookup_snoc_Some. right. split; reflexivity. }
      rewrite lookup_insert_ne by exact Hne.
      apply (IH m i k v Hi).
      intros j v' Hj Hl. apply (Hlast j v' Hj).
      apply lookup_snoc_Some. left. split; [| exact Hl].
      apply lookup_lt_Some in Hl. exact Hl.
    + injection Heq as -> ->. apply lookup_insert_eq.
Qed.

(** A name that no pair carries is not added. *)
Lemma insert_pairs_lookup_other (l : list (string * string)) :
  forall (m : gmap string string) (k : string),
    (forall (j : nat) (v' : string), l !! j <> Some (k, v')) ->
    insert_pairs m l !! k = m !! k.
Proof.
  induction l as [| [k0 v0] l IH] using rev_ind; intros m k Hno.
  - reflexivity.
  - rewrite insert_pairs_snoc.
    assert (Hne : k0 <> k).
    { intros ->. apply (Hno (length l) v0).
      apply lookup_snoc_Some. right. split; reflexivity. }
    rewrite lookup_insert_ne by exact Hne.
    apply IH. intros j v' Hl. apply (Hno j v').
    apply lookup_snoc_Some. left. split; [| exact Hl].
    apply lookup_lt_Some in Hl. exact Hl.
Qed.

Lemma pairs_at_0_lookup (names values : list string) (n j : nat) (k v : string) :
  pairs_at names values 0 n !! j = Some (k, v)
  <-> (j < n)%nat /\ names !! j = Some k /\ values !! j = Some v.
Proof.
  change (pairs_at names values 0 n) with (zip (take n names) (take n values)).
  rewrite lookup_zip_with_Some. split.
  - intros (x & y & [= -> ->] & Hx & Hy).
    apply lookup_take_Some in Hx as [Hx Hj].
    apply lookup_take_Some in Hy as [Hy _]. auto.
  - intros (Hj & Hx & Hy). exists k, v.
    rewrite !lookup_take_lt by exact Hj. auto.
Qed.

(** What a loop of pair assignments that returns has put into the map. *)
Lemma for_lt_assign_pair_Return (names values : list string) (bound : Z)
    (m : gmap string string) :
  for_lt bound (assign_pair names values) ∅ = Return m ->
  m = insert_pairs ∅ (pairs_at names values 0 (Z.to_nat bound))
  /\ (0 < bound -> bound <= len names /\ bound <= len values).
Proof.
  intros Hm.
  assert (Hr : exists m', for_lt bound (assign_pair names values) ∅ = Return m')
    by (exists m; exact Hm).
  apply for_lt_assign_pair_returns in Hr.
  unfold for_lt in Hm.
  destruct (decide (bound <= 0)) as [Hb | Hb].
  - replace (Z.to_nat bound) with O in * by lia. cbn in Hm.
    injection Hm as <-. split; [reflexivity | lia].
  - rewrite for_from_assign_pair_Return in Hm by lia.
    injection Hm as <-. split; [reflexivity | lia].
Qed.

Lemma for_lt_assign_pair_lookup (names values : list string) (bound : Z)
    (m : gmap string string) :
  for_lt bound (assign_pair names values) ∅ = Return m ->
  (forall (i : nat) (k : string),
     Z.of_nat i < bound -> names !! i = Some k ->
     (forall j : nat, (i < j)%nat -> Z.of_nat j < bound -> names !! j <> Some k) ->
     exists v, values !! i = Some v /\ m !! k = Some v)
  /\ (forall k : string,
        (forall j : nat, Z.of_nat j < bound -> names !! j <> Some k) ->
        m !! k = None).
Proof.
  intros Hm. apply for_lt_assign_pair_Return in Hm as [-> Hlen]. split.
  - intros i k Hi Hk Hlast.
    destruct (lookup_lt_is_Some_2 values i) as [v Hv].
    { unfold len in Hlen. lia. }
    exists v. split; [exact Hv |].
    apply (insert_pairs_lookup_last _ ∅ i k v).
    + apply pairs_at_0_lookup. split; [lia | auto].
    + intros j v' Hj Hl. apply pairs_at_0_lookup in Hl as (Hjn & Hn & _).
      apply (Hlast j Hj); [lia | exact Hn].
  - intros k Hno. rewrite insert_pairs_lookup_other; [apply lookup_empty |].
    intros j v' Hl. apply pairs_at_0_lookup in Hl as (Hjn & Hn & _).
    apply (Hno j); [lia | exact Hn].
Qed.

Lemma for_lt_assign_pair_size (names values : list string) (bound : Z)
    (m : gmap string string) :
  for_lt bound (assign_pair names values) ∅ = Return m ->
  (size m <= Z.to_nat bound)%nat.
Proof.
  intros Hm. apply for_lt_assign_pair_Return in Hm as [-> _].
  pose proof (insert_pairs_size (pairs_at names values 0 (Z.to_nat bound)) ∅) as Hs.
  pose proof (pairs_at_length names values 0 (Z.to_nat bound)) as Hl.
  rewrite map_size_empty in Hs. lia.
Qed.

(** The run-time error of a loop that leaves one of its slices: the index
    and the length it reports are both the length of the shorter slice. *)
Lemma for_from_assign_pair_panic_at (names values : list string) (n : nat) :
  forall (i : Z) (m : gmap string string),
    0 <= i -> i <= Z.min (len names) (len values) ->
    Z.min (len names) (len values) < i + Z.of_nat n ->
    for_from n i (assign_pair names values) m
    = Panicked (index_out_of_range (Z.min (len names) (len values))
                                   (Z.min (len names) (len values))).
Proof.
  induction n as [| n IH]; intros i m H0 Hle Hlt; [lia |].
  cbn [for_from]. unfold assign_pair at 1.
  destruct (decide (i < Z.min (len names) (len values))) as [Hin | Hat].
  - destruct (index_in_range names i) as (k & Hk & _); [lia |].
    destruct (index_in_range values i) as (v & Hv & _); [lia |].
    rewrite Hk, Hv. cbn [obind]. apply IH; lia.
  - assert (Hi : i = Z.min (len names) (len values)) by lia.
    destruct (decide (len names <= len values)) as [Hnv | Hnv].
    + rewrite Z.min_l in * by lia. subst i.
      rewrite index_out_of_range_panics by lia. reflexivity.
    + rewrite Z.min_r in * by lia. subst i.
      destruct (index_in_range names (len values)) as (k & Hk & _); [lia |].
      rewrite Hk. cbn [obind].
      rewrite index_out_of_range_panics by lia. reflexivity.
Qed.

Lemma newAlert_Return_inv
    (tagName tagValue annotationName annotationValue : list string)
    (alertLevel : any) (a : AlertManagerAlert) :
  newAlert tagName tagValue annotationName annotationValue alertLevel = Return a ->
  Status a = alertStatus alertLevel
  /\ for_lt (len tagName - 1) (assign_pair tagName tagValue) ∅ = Return (Labels a)
  /\ for_lt (len tagName - 1) (assign_pair annotationName annotationValue) ∅
     = Return (Annotations a).
Proof.
  unfold newAlert, alertLabels, alertAnnotations. intros Ha.
  destruct (for_lt (len tagName - 1) (assign_pair tagName tagValue) ∅)
    as [ls |]; [| discriminate].
  destruct (for_lt (len tagName - 1) (assign_pair annotationName annotationValue) ∅)
    as [ans |]; [| discriminate].
  cbn in Ha. injection Ha as <-. auto.
Qed.

(** X1: in a record that is built, a label name at a position below
    [len(tagName)-1] that does not come again below that bound has the value
    of the same position; a name that stands at no position below the bound,
    as the last name does when it is not repeated, has no entry. *)
Theorem X1_Labels_content
    (tagName tagValue annotationName annotationValue : list string)
    (alertLevel : any) (a : AlertManagerAlert) :
  newAlert tagName tagValue annotationName annotationValue alertLevel = Return a ->
  (forall (i : nat) (k : string),
     Z.of_nat i < len tagName - 1 -> tagName !! i = Some k ->
     (forall j : nat, (i < j)%nat -> Z.of_nat j < len tagName - 1 ->
                      tagName !! j <> Some k) ->
     exists v, tagValue !! i = Some v /\ Labels a !! k = Some v)
  /\ (forall k : string,
        (forall j : nat, Z.of_nat j < len tagName - 1 -> tagName !! j <> Some k) ->
        Labels a !! k = None).
Proof.
  intros Ha. apply newAlert_Return_inv in Ha as (_ & HL & _).
  exact (for_lt_assign_pair_lookup tagName tagValue (len tagName - 1) (Labels a) HL).
Qed.

(** X2: the annotations of a record that is built are the pairs of the
    annotation slices at the positions below [len(tagName)-1], the bound of
    the label slice: a later pair of the same name wins, and an annotation
    name that stands only at positions from that bound on has no entry. *)
Theorem X2_Annotations_content
    (tagName tagValue annotationName annotationValue : list string)
    (alertLevel : any) (a : AlertManagerAlert) :
  newAlert tagName tagValue annotationName annotationValue alertLevel = Return a ->
  (forall (i : nat) (k : string),
     Z.of_nat i < len tagName - 1 -> annotationName !! i = Some k ->
     (forall j : nat, (i < j)%nat -> Z.of_nat j < len tagName - 1 ->
                      annotationName !! j <> Some k) ->
     exists v, annotationValue !! i = Some v /\ Annotations a !! k = Some v)
  /\ (forall k : string,
        (forall j : nat, Z.of_nat j < len tagName - 1 ->
                         annotationName !! j <> Some k) ->
        Annotations a !! k = None).
Proof.
  intros Ha. apply newAlert_Return_inv in Ha as (_ & _ & HA).
  exact (for_lt_assign_pair_lookup annotationName annotationValue
           (len tagName - 1) (Annotations a) HA).
Qed.

(** X3: a record that is built has at most [len(tagName)-1] labels and at
    most [len(tagName)-1] annotations, however long the annotation slices
    are. *)
Theorem X3_entries_bounded
    (tagName tagValue annotationName annotationValue : list string)
    (alertLevel : any) (a : AlertManagerAlert) :
  newAlert tagName tagValue annotationName annotationValue alertLevel = Return a ->
  (size (Labels a) <= Z.to_nat (len tagName - 1))%nat
  /\ (size (Annotations a) <= Z.to_nat (len tagName - 1))%nat.
Proof.
  intros Ha. apply newAlert_Return_inv in Ha as (_ & HL & HA).
  split; eapply for_lt_assign_pair_size; eassumption.
Qed.

(** X4: with no label name or with one, the record is built for every
    content of the three other slices and has neither a label nor an
    annotation. *)
Theorem X4_at_most_one_name_empty_record
    (tagName tagValue annotationName annotationValue : list string)
    (alertLevel : any) :
  len tagName <= 1 ->
  newAlert tagName tagValue annotationName annotationValue alertLevel
  = Return {| Status := alertStatus alertLevel; Labels := ∅; Annotations := ∅ |}.
Proof.
  intros Hl. unfold newAlert, alertLabels, alertAnnotations, for_lt.
  replace (Z.to_nat (len tagName - 1)) with O by lia. reflexivity.
Qed.

(** X5: when the label values are fewer than [len(tagName)-1], the
    construction panics with the index and the length both equal to the
    number of label values; when they are enough and the shorter of the two
    annotation slices is shorter than [len(tagName)-1], it panics with the
    index and the length both equal to the length of that slice. *)
Theorem X5_panic_index
    (tagName tagValue annotationName annotationValue : list string)
    (alertLevel : any) :
  (len tagValue < len tagName - 1 ->
     newAlert tagName tagValue annotationName annotationValue alertLevel
     = Panicked (index_out_of_range (len tagValue) (len tagValue)))
  /\ (len tagName - 1 <= len tagValue ->
      Z.min (len annotationName) (len annotationValue) < len tagName - 1 ->
      newAlert tagName tagValue annotationName annotationValue alertLevel
      = Panicked (index_out_of_range
                    (Z.min (len annotationName) (len annotationValue))
                    (Z.min (len annotationName) (len annotationValue)))).
Proof.
  pose proof (len_nonneg tagValue) as HtV.
  pose proof (len_nonneg annotationName) as HaN.
  pose proof (len_nonneg annotationValue) as HaV.
  split.
  - intros Hshort. unfold newAlert, alertLabels, for_lt.
    rewrite (for_from_assign_pair_panic_at tagName tagValue) by lia.
    rewrite Z.min_r by lia. reflexivity.
  - intros Hv Hshort. unfold newAlert.
    rewrite (alertLabels_Return tagName tagValue Hv). cbn [obind].
    unfold alertAnnotations, for_lt.
    rewrite (for_from_assign_pair_panic_at annotationName annotationValue) by lia.
    reflexivity.
Qed.

(** X6: the status of a record that is built is resolved only for the
    interface value that holds the level OK of type [alert.Level]; every
    other value, the nil interface and the integer 0 among them, gives
    firing. *)
Theorem X6_status_of_interface_value
    (tagName tagValue annotationName annotationValue : list string)
    (alertLevel : any) (a : AlertManagerAlert) :
  newAlert tagName tagValue annotationName annotationValue alertLevel = Return a ->
  (Status a = "resolved" <-> alertLevel = any_Level OK)
  /\ (alertLevel <> any_Level OK -> Status a = "firing").
Proof.
  intros Ha. apply newAlert_Status in Ha. rewrite Ha.
  unfold alertStatus, any_eq_Level.
  destruct alertLevel as [| | | | | [] | | |]; cbn;
    (split; [split |]); intros; try reflexivity; try discriminate; try congruence.
Qed.

Lemma index_Panicked {A : Type} (s : list A) (i : Z) (p : panic) :
  index s i = Panicked p -> p = index_out_of_range i (len s).
Proof.
  unfold index. case_bool_decide.
  - destruct (s !! Z.to_nat i); [discriminate |]. intros [= <-]. reflexivity.
  - intros [= <-]. reflexivity.
Qed.

Lemma for_from_assign_pair_Panicked_kind (names values : list string) (n : nat) :
  forall (i : Z) (m : gmap string string) (p : panic),
    for_from n i (assign_pair names values) m = Panicked p ->
    exists (j l : Z), p = index_out_of_range j l.
Proof.
  induction n as [| n IH]; intros i m p Hp; [discriminate |].
  cbn [for_from] in Hp. unfold assign_pair at 1 in Hp.
  destruct (index names i) as [k |] eqn:Hk.
  - destruct (index values i) as [v |] eqn:Hv.
    + cbn [obind] in Hp. exact (IH _ _ _ Hp).
    + cbn [obind] in Hp. injection Hp as <-.
      apply index_Panicked in Hv. eauto.
  - cbn [obind] in Hp. injection Hp as <-.
    apply index_Panicked in Hk. eauto.
Qed.

(** The only run-time error of the construction is an index out of range. *)
Lemma newAlert_Panicked_kind
    (tagName tagValue annotationName annotationValue : list string)
    (alertLevel : any) (p : panic) :
  newAlert tagName tagValue annotationName annotationValue alertLevel = Panicked p ->
  exists (j l : Z), p = index_out_of_range j l.
Proof.
  unfold newAlert, alertLabels, alertAnnotations, for_lt. intros Hp.
  destruct (for_from (Z.to_nat (len tagName - 1)) 0 (assign_pair tagName tagValue) ∅)
    as [ls |] eqn:HL.
  - destruct (for_from (Z.to_nat (len tagName - 1)) 0
                (assign_pair annotationName annotationValue) ∅) as [ans |] eqn:HA.
    + discriminate.
    + cbn [obind] in Hp. injection Hp as <-.
      exact (for_from_assign_pair_Panicked_kind _ _ _ _ _ _ HA).
  - cbn [obind] in Hp. injection Hp as <-.
    exact (for_from_assign_pair_Panicked_kind _ _ _ _ _ _ HL).
Qed.

(** * Further properties of the service *)

Section ServiceExtras.

Context {D : Type} `{!Diagnostic D} `{!JSONString}.

Implicit Types (w : @World D) (c : Config) (a : AlertManagerAlert).

(** The three outcomes of the dispatch as [Handle] treats them. *)
Lemma Handle_cases (h : handler) (event : alert_Event) w :
  Handle h event w
  = match Alert (hc_Room (h_c h))
                (AlertManagerTagName (h_c h)) (AlertManagerTagValue (h_c h))
                (AlertManagerAnnotationName (h_c h))
                (AlertManagerAnnotationValue (h_c h))
                (any_Level (Level_ (State event))) w with
    | (Return None, w') => (Return tt, w')
    | (Return (Some e), w') =>
        (Return tt, extend w' [diag_Error_call (h_diag h) "E! failed to handle event" e])
    | (Panicked p, w') => (Panicked p, w')
    end.
Proof.
  unfold Handle, bind.
  destruct (Alert _ _ _ _ _ _ w) as [[[e |] | p] w']; reflexivity.
Qed.

Lemma Update_stored (newConfig : list any) w :
  Update newConfig w
  = match newConfig with
    | [x] =>
        match assert_Config x with
        | Some c =>
            (Return None,
             {| service := {| configValue := Some c; diag := diag (service w) |};
                transport := transport w; trace := trace w |})
        | None => (Return (Some (Errorf_config_type x)), w)
        end
    | _ => (Return (Some (Errorf_config_count (len newConfig))), w)
    end.
Proof.
  destruct newConfig as [| x [| y rest]].
  - apply Update_count. unfold len. cbn. lia.
  - apply Update_single.
  - apply Update_count. unfold len. cbn [length]. lia.
Qed.

Lemma lengths_fit_build
    (tagName tagValue annotationName annotationValue : list string)
    (alertLevel : any) :
  (exists a, newAlert tagName tagValue annotationName annotationValue alertLevel
             = Return a)
  <-> len tagName <= 1
      \/ (len tagName - 1 <= len tagValue
          /\ len tagName - 1 <= len annotationName
          /\ len tagName - 1 <= len annotationValue).
Proof. rewrite newAlert_returns. lia. Qed.

(** X7: [Alert] returns, with nil or with an error, exactly when a
    configuration is stored and it is not enabled, or there is at most one
    label name, or each of the three other slices has at least
    [len(tagName)-1] elements.  On every other input it panics. *)
Theorem X7_Alert_returns_iff (room : string)
    (tagName tagValue annotationName annotationValue : list string)
    (alertLevel : any) w :
  (exists (r : option error) (w' : World),
     Alert room tagName tagValue annotationName annotationValue alertLevel w
     = (Return r, w'))
  <-> exists c, configValue (service w) = Some c
                /\ (Enabled c = false
                    \/ len tagName <= 1
                    \/ (len tagName - 1 <= len tagValue
                        /\ len tagName - 1 <= len annotationName
                        /\ len tagName - 1 <= len annotationValue)).
Proof.
  rewrite Alert_returns. split.
  - intros (c & Hc & [He | Hb]); exists c; (split; [exact Hc |]).
    + left. exact He.
    + right. apply lengths_fit_build in Hb. exact Hb.
  - intros (c & Hc & [He | Hb]); exists c; (split; [exact Hc |]).
    + left. exact He.
    + right. eapply lengths_fit_build. exact Hb.
Qed.

Lemma Alert_Panicked_inv (room : string)
    (tagName tagValue annotationName annotationValue : list string)
    (alertLevel : any) w (p : panic) (w' : World) :
  Alert room tagName tagValue annotationName annotationValue alertLevel w
  = (Panicked p, w') ->
  w' = w
  /\ (p = nil_interface_conversion /\ configValue (service w) = None
      \/ exists (i l : Z), p = index_out_of_range i l).
Proof.
  intros Hrun.
  destruct (configValue (service w)) as [c |] eqn:Hc.
  - destruct (Enabled c) eqn:He.
    + destruct (newAlert tagName tagValue annotationName annotationValue alertLevel)
        as [a | p0] eqn:Hb.
      * destruct (transport w (trace w) (URL c) "application/json"
                    (fst (json_Marshal [a]))) as [r | e] eqn:Ht.
        -- rewrite (Alert_response room _ _ _ _ _ w c a r Hc He Hb Ht) in Hrun.
           discriminate.
        -- rewrite (Alert_transport_error room _ _ _ _ _ w c a e Hc He Hb Ht) in Hrun.
           discriminate.
      * rewrite (Alert_build_panics room _ _ _ _ _ w c p0 Hc He Hb) in Hrun.
        injection Hrun as <- <-. split; [reflexivity | right].
        exact (newAlert_Panicked_kind _ _ _ _ _ _ Hb).
    + rewrite (Alert_disabled room _ _ _ _ _ w c Hc He) in Hrun. discriminate.
  - rewrite (Alert_never_stored room _ _ _ _ _ w Hc) in Hrun.
    injection Hrun as <- <-. auto.
Qed.

(** X8: when [Alert] panics nothing has happened yet: the world is the one
    from before the call, so no request was made; and the panic is either the
    failed conversion of a value that was never stored or an index out of
    range. *)
Theorem X8_Alert_panics_before_request (room : string)
    (tagName tagValue annotationName annotationValue : list string)
    (alertLevel : any) w (p : panic) (w' : World) :
  Alert room tagName tagValue annotationName annotationValue alertLevel w
  = (Panicked p, w') ->
  w' = w
  /\ (p = nil_interface_conversion /\ configValue (service w) = None
      \/ exists (i l : Z), p = index_out_of_range i l).
Proof.
  exact (Alert_Panicked_inv room tagName tagValue annotationName annotationValue
           alertLevel w p w').
Qed.

(** X9: with an enabled configuration and a record that is built, [Alert]
    makes one request to the URL of the configuration with the content type
    application/json and the marshalled one-element batch.  When a response
    comes, its body is closed right after, whatever the status code; when the
    transport fails, nothing is closed and the error of the transport is
    returned as it is. *)
Theorem X9_request_then_close c a (room : string)
    (tagName tagValue annotationName annotationValue : list string)
    (alertLevel : any) w :
  configValue (service w) = Some c -> Enabled c = true ->
  newAlert tagName tagValue annotationName annotationValue alertLevel = Return a ->
  (forall r : Response,
     transport w (trace w) (URL c) "application/json" (fst (json_Marshal [a])) = inl r ->
     snd (Alert room tagName tagValue annotationName annotationValue alertLevel w)
     = extend w [http_Post_call (URL c) "application/json" (fst (json_Marshal [a]));
                 Body_Close_call])
  /\ (forall e : error,
        transport w (trace w) (URL c) "application/json" (fst (json_Marshal [a])) = inr e ->
        Alert room tagName tagValue annotationName annotationValue alertLevel w
        = (Return (Some e),
           extend w [http_Post_call (URL c) "application/json"
                                    (fst (json_Marshal [a]))])).
Proof.
  intros Hc He Hb. split.
  - intros r Ht.
    rewrite (Alert_response room _ _ _ _ _ w c a r Hc He Hb Ht). reflexivity.
  - intros e Ht.
    exact (Alert_transport_error room _ _ _ _ _ w c a e Hc He Hb Ht).
Qed.

(** X10: a call of [Alert] adds one HTTP request to the trace when a
    configuration is stored, it is enabled and the record is built, and none
    otherwise; it never calls the diagnostic. *)
Theorem X10_requests_counted (room : string)
    (tagName tagValue annotationName annotationValue : list string)
    (alertLevel : any) w :
  posts (trace (snd (Alert room tagName tagValue annotationName annotationValue
                           alertLevel w)))
  = (posts (trace w)
     + match configValue (service w),
             newAlert tagName tagValue annotationName annotationValue alertLevel with
       | Some c, Return _ => if Enabled c then 1 else 0
       | _, _ => 0
       end)%nat
  /\ diag_Errors (trace (snd (Alert room tagName tagValue annotationName
                                    annotationValue alertLevel w)))
     = diag_Errors (trace w).
Proof.
  split; [| apply Alert_diag_Errors].
  destruct (configValue (service w)) as [c |] eqn:Hc.
  - destruct (Enabled c) eqn:He.
    + destruct (newAlert tagName tagValue annotationName annotationValue alertLevel)
        as [a | p0] eqn:Hb.
      * destruct (transport w (trace w) (URL c) "application/json"
                    (fst (json_Marshal [a]))) as [r | e] eqn:Ht.
        -- rewrite (Alert_response room _ _ _ _ _ w c a r Hc He Hb Ht).
           unfold extend. cbn [snd trace].
           rewrite posts_app, !posts_cons. reflexivity.
        -- rewrite (Alert_transport_error room _ _ _ _ _ w c a e Hc He Hb Ht).
           unfold extend. cbn [snd trace].
           rewrite posts_app, !posts_cons. reflexivity.
      * rewrite (Alert_build_panics room _ _ _ _ _ w c p0 Hc He Hb).
        cbn [snd]. lia.
    + rewrite (Alert_disabled room _ _ _ _ _ w c Hc He).
      cbn [snd]. destruct (newAlert _ _ _ _ _); lia.
  - rewrite (Alert_never_stored room _ _ _ _ _ w Hc). cbn [snd]. lia.
Qed.

Lemma Alert_keeps_service (room : string)
    (tagName tagValue annotationName annotationValue : list string)
    (alertLevel : any) w :
  service (snd (Alert room tagName tagValue annotationName annotationValue
                      alertLevel w)) = service w
  /\ transport (snd (Alert room tagName tagValue annotationName annotationValue
                           alertLevel w)) = transport w.
Proof.
  destruct (Alert_frame room tagName tagValue annotationName annotationValue
              alertLevel w) as (es & -> & _).
  destruct (decide (es = [])); split; reflexivity.
Qed.

(** X11: no method but [Update] writes the stored configuration: after
    [Alert], [Handle], [Test], [TestOptions], [DefaultHandlerConfig] and
    [Handler] the service is the one from before the call, whatever the
    outcome. *)
Theorem X11_only_Update_stores (room : string)
    (tagName tagValue annotationName annotationValue : list string)
    (alertLevel o : any) (h : handler) (event : alert_Event)
    (hc : HandlerConfig) (ctx : list keyvalue_T) w :
  service (snd (Alert room tagName tagValue annotationName annotationValue
                      alertLevel w)) = service w
  /\ service (snd (Handle h event w)) = service w
  /\ service (snd (Test o w)) = service w
  /\ service (snd (TestOptions w)) = service w
  /\ service (snd (DefaultHandlerConfig w)) = service w
  /\ service (snd (Handler hc ctx w)) = service w.
Proof.
  split; [apply Alert_keeps_service |].
  split.
  { rewrite Handle_cases.
    pose proof (proj1 (Alert_keeps_service (hc_Room (h_c h))
                  (AlertManagerTagName (h_c h)) (AlertManagerTagValue (h_c h))
                  (AlertManagerAnnotationName (h_c h))
                  (AlertManagerAnnotationValue (h_c h))
                  (any_Level (Level_ (State event))) w)) as Hs.
    destruct (Alert _ _ _ _ _ _ w) as [[[e |] | p] w']; exact Hs. }
  split.
  { unfold Test. destruct (assert_testOptionsPtr o) as [[options |] |].
    - apply Alert_keeps_service.
    - reflexivity.
    - reflexivity. }
  split; [| split].
  - unfold TestOptions, bind, config. destruct (configValue (service w)); reflexivity.
  - unfold DefaultHandlerConfig, bind, config.
    destruct (configValue (service w)); reflexivity.
  - reflexivity.
Qed.

(** X12: [Update] makes no request and no diagnostic call and keeps the
    diagnostic and the network of the service, on every input. *)
Theorem X12_Update_is_silent (newConfig : list any) w :
  trace (snd (Update newConfig w)) = trace w
  /\ transport (snd (Update newConfig w)) = transport w
  /\ diag (service (snd (Update newConfig w))) = diag (service w).
Proof.
  rewrite Update_stored.
  destruct newConfig as [| x [| y rest]]; try (repeat split; reflexivity).
  destruct (assert_Config x); repeat split; reflexivity.
Qed.

(** The stored configuration after a sequence of calls of [Update]. *)
Lemma Update_sequence_stored (calls : list (list any)) w :
  configValue (service (foldl (fun w newConfig => snd (Update newConfig w)) w calls))
  = match last (omap (fun newConfig =>
                        match newConfig with
                        | [x] => assert_Config x
                        | _ => None
                        end) calls) with
    | Some c => Some c
    | None => configValue (service w)
    end.
Proof.
  induction calls as [| newConfig calls IH] using rev_ind.
  - reflexivity.
  - rewrite foldl_snoc, omap_app. cbn [omap list_omap].
    rewrite Update_stored.
    destruct newConfig as [| x [| y rest]].
    + rewrite (right_id_L [] (++)). exact IH.
    + destruct (assert_Config x) as [c |].
      * rewrite last_snoc. reflexivity.
      * rewrite (right_id_L [] (++)). exact IH.
    + rewrite (right_id_L [] (++)). exact IH.
Qed.

(** X13: after any sequence of calls of [Update], the stored configuration
    is the element of the last call that had exactly one element and that
    element a [Config]; when there is no such call it is what was stored
    before. *)
Theorem X13_last_valid_Update_wins (calls : list (list any)) w :
  configValue (service (foldl (fun w newConfig => snd (Update newConfig w)) w calls))
  = match last (omap (fun newConfig =>
                        match newConfig with
                        | [x] => assert_Config x
                        | _ => None
                        end) calls) with
    | Some c => Some c
    | None => configValue (service w)
    end.
Proof. exact (Update_sequence_stored calls w). Qed.

(** X20: on a service made by [NewService], [config] returns a
    configuration after any sequence of calls of [Update], valid or not: it
    never meets a value that was not stored.  What it returns is the
    configuration of the last valid call, or the one the service was made
    with. *)
Theorem X20_config_after_NewService (c0 : Config) (d : D)
    (calls : list (list any)) w :
  service w = NewService c0 d ->
  exists c,
    fst (config (foldl (fun w newConfig => snd (Update newConfig w)) w calls))
    = Return c
    /\ c = default c0 (last (omap (fun newConfig =>
                                     match newConfig with
                                     | [x] => assert_Config x
                                     | _ => None
                                     end) calls)).
Proof.
  intros Hs.
  pose proof (Update_sequence_stored calls w) as Hst.
  rewrite Hs in Hst. cbn [NewService configValue] in Hst.
  eexists. split; [| reflexivity].
  unfold config. destruct (last _) as [c |]; rewrite Hst; reflexivity.
Qed.

Lemma Alert_posts_first c a (room : string)
    (tagName tagValue annotationName annotationValue : list string)
    (alertLevel : any) w :
  configValue (service w) = Some c -> Enabled c = true ->
  newAlert tagName tagValue annotationName annotationValue alertLevel = Return a ->
  exists (r : option error) (rest : list Event),
    Alert room tagName tagValue annotationName annotationValue alertLevel w
    = (Return r,
       extend w (http_Post_call (URL c) "application/json" (fst (json_Marshal [a]))
                 :: rest))
    /\ posts rest = 0%nat /\ diag_Errors rest = 0%nat.
Proof.
  intros Hc He Hb.
  destruct (transport w (trace w) (URL c) "application/json" (fst (json_Marshal [a])))
    as [r | e] eqn:Ht.
  - rewrite (Alert_response room _ _ _ _ _ w c a r Hc He Hb Ht).
    eexists _, [Body_Close_call]. repeat split.
  - rewrite (Alert_transport_error room _ _ _ _ _ w c a e Hc He Hb Ht).
    eexists _, []. repeat split.
Qed.

(** X14: a handler reads the configuration at the time of the event, not at
    the time it was made.  For a handler made by [Handler] before a
    successful [Update] with the configuration [c'], an event handled after
    the update is refused and reported when [c'] is not enabled, and is
    posted to the URL of [c'] when it is enabled. *)
Theorem X14_handler_follows_Update (hc : HandlerConfig) (ctx : list keyvalue_T)
    (h : handler) (err : option error) (w0 : World) (c' : Config)
    (event : alert_Event) w :
  Handler hc ctx w = (Return (h, err), w0) ->
  (Enabled c' = false ->
     Handle h event (snd (Update [any_Config c'] w0))
     = (Return tt,
        extend (snd (Update [any_Config c'] w0))
               [diag_Error_call (WithContext (diag (service w)) ctx)
                                "E! failed to handle event"
                                (errors_New "service is not enabled")]))
  /\ (Enabled c' = true ->
      forall a,
        newAlert (AlertManagerTagName hc) (AlertManagerTagValue hc)
                 (AlertManagerAnnotationName hc) (AlertManagerAnnotationValue hc)
                 (any_Level (Level_ (State event))) = Return a ->
        exists rest : list Event,
          trace (snd (Handle h event (snd (Update [any_Config c'] w0))))
          = (trace w ++ http_Post_call (URL c') "application/json"
                                       (fst (json_Marshal [a])) :: rest)%list).
Proof.
  unfold Handler. intros [= <- <- <-].
  rewrite Update_single. cbn [assert_Config snd].
  set (w' := {| service := {| configValue := Some c'; diag := diag (service w) |};
                transport := transport w; trace := trace w |}).
  assert (Hc : configValue (service w') = Some c') by reflexivity.
  split.
  - intros He. rewrite Handle_cases. cbn [h_c h_diag].
    rewrite (Alert_disabled _ _ _ _ _ _ w' c' Hc He). reflexivity.
  - intros He a Hb. rewrite Handle_cases. cbn [h_c h_diag].
    destruct (Alert_posts_first c' a (hc_Room hc) _ _ _ _ _ w' Hc He Hb)
      as (r & rest & -> & _).
    destruct r as [e |].
    + exists (rest ++ [diag_Error_call (WithContext (diag (service w)) ctx)
                         "E! failed to handle event" e])%list.
      unfold extend. cbn [snd trace].
      rewrite <- (assoc_L (++)). reflexivity.
    + exists rest. reflexivity.
Qed.

(** X15: what [TestOptions] returns is accepted by [Test]: with a stored
    configuration the test is the dispatch of a Critical alert without labels
    and annotations, it never panics, and with an enabled configuration its
    request carries the record with the status firing and two empty maps. *)
Theorem X15_TestOptions_then_Test c w :
  configValue (service w) = Some c ->
  exists o : any,
    TestOptions w = (Return o, w)
    /\ Test o w = Alert (Room c) [] [] [] [] (any_Level Critical) w
    /\ (exists (r : option error) (w' : World), Test o w = (Return r, w'))
    /\ (Enabled c = true ->
        exists rest : list Event,
          trace (snd (Test o w))
          = (trace w
             ++ http_Post_call (URL c) "application/json"
                  (fst (json_Marshal [{| Status := "firing"; Labels := ∅;
                                         Annotations := ∅ |}]))
                :: rest)%list).
Proof.
  intros Hc. eexists. split.
  { unfold TestOptions, bind. rewrite (config_stored w c Hc). reflexivity. }
  cbn [Test assert_testOptionsPtr to_Room to_AlertManagerTagName
       to_AlertManagerTagValue to_AlertManagerAnnotationName
       to_AlertManagerAnnotationValue].
  split; [reflexivity |]. split.
  - apply Alert_returns. exists c. split; [exact Hc |].
    right. eexists. reflexivity.
  - intros He.
    destruct (Alert_posts_first c {| Status := "firing"; Labels := ∅; Annotations := ∅ |}
                (Room c) [] [] [] [] (any_Level Critical) w Hc He eq_refl)
      as (r & rest & -> & _).
    exists rest. reflexivity.
Qed.

(** X16: with a stored configuration, [DefaultHandlerConfig] returns the
    room of that configuration and four empty lists.  Every handler that
    [Handler] returns for it does not panic on an event, and with an enabled
    configuration it posts the status of the event with no label and no
    annotation. *)
Theorem X16_default_handler c (ctx : list keyvalue_T) (event : alert_Event) w :
  configValue (service w) = Some c ->
  DefaultHandlerConfig w
  = (Return {| hc_Room := Room c;
               AlertManagerTagName := [];
               AlertManagerTagValue := [];
               AlertManagerAnnotationName := [];
               AlertManagerAnnotationValue := [] |}, w)
  /\ forall (hc : HandlerConfig) (h : handler) (err : option error) (w0 : World),
       DefaultHandlerConfig w = (Return hc, w) ->
       Handler hc ctx w = (Return (h, err), w0) ->
       (exists w' : World, Handle h event w0 = (Return tt, w'))
       /\ (Enabled c = true ->
           exists rest : list Event,
             trace (snd (Handle h event w0))
             = (trace w
                ++ http_Post_call (URL c) "application/json"
                     (fst (json_Marshal
                             [{| Status := alertStatus (any_Level (Level_ (State event)));
                                 Labels := ∅; Annotations := ∅ |}]))
                   :: rest)%list).
Proof.
  intros Hc.
  assert (Hd : DefaultHandlerConfig w
               = (Return {| hc_Room := Room c;
                            AlertManagerTagName := [];
                            AlertManagerTagValue := [];
                            AlertManagerAnnotationName := [];
                            AlertManagerAnnotationValue := [] |}, w)).
  { unfold DefaultHandlerConfig, bind. rewrite (config_stored w c Hc). reflexivity. }
  split; [exact Hd |].
  intros hc h err w0 Hhc. rewrite Hd in Hhc. injection Hhc as <-.
  unfold Handler. intros [= <- <- <-].
  rewrite Handle_cases. cbn [h_c h_diag hc_Room AlertManagerTagName
       AlertManagerTagValue AlertManagerAnnotationName AlertManagerAnnotationValue].
  destruct (Enabled c) eqn:He.
  - destruct (Alert_posts_first c
                {| Status := alertStatus (any_Level (Level_ (State event)));
                   Labels := ∅; Annotations := ∅ |}
                (Room c) [] [] [] [] (any_Level (Level_ (State event))) w Hc He eq_refl)
      as (r & rest & -> & _).
    destruct r as [e |].
    + split; [eexists; reflexivity |]. intros _.
      eexists (rest ++ [_])%list. unfold extend. cbn [snd trace].
      rewrite <- (assoc_L (++)). reflexivity.
    + split; [eexists; reflexivity |]. intros _. exists rest. reflexivity.
  - rewrite (Alert_disabled _ _ _ _ _ _ w c Hc He).
    split; [eexists; reflexivity | discriminate].
Qed.

(** X17: with a stored configuration that is not enabled, every event makes
    [Handle] call the diagnostic once with the error of the disabled service,
    and no request is made. *)
Theorem X17_Handle_disabled_reports c (h : handler) (event : alert_Event) w :
  configValue (service w) = Some c -> Enabled c = false ->
  Handle h event w
  = (Return tt,
     extend w [diag_Error_call (h_diag h) "E! failed to handle event"
                               (errors_New "service is not enabled")]).
Proof.
  intros Hc He. rewrite Handle_cases.
  rewrite (Alert_disabled _ _ _ _ _ _ w c Hc He). reflexivity.
Qed.

(** X18: [Handle] returns to the pipeline exactly when a configuration is
    stored and it is not enabled, or the handler has at most one label name,
    or each of its three other slices has at least [len(tagName)-1] elements;
    on every other handler it panics, and the panic leaves the world as it
    was. *)
Theorem X18_Handle_returns_iff (h : handler) (event : alert_Event) w :
  ((exists w' : World, Handle h event w = (Return tt, w'))
   <-> exists c, configValue (service w) = Some c
                 /\ (Enabled c = false
                     \/ len (AlertManagerTagName (h_c h)) <= 1
                     \/ (len (AlertManagerTagName (h_c h)) - 1
                           <= len (AlertManagerTagValue (h_c h))
                         /\ len (AlertManagerTagName (h_c h)) - 1
                            <= len (AlertManagerAnnotationName (h_c h))
                         /\ len (AlertManagerTagName (h_c h)) - 1
                            <= len (AlertManagerAnnotationValue (h_c h)))))
  /\ (forall (p : panic) (w' : World),
        Handle h event w = (Panicked p, w') -> w' = w).
Proof.
  pose proof (Alert_returns (hc_Room (h_c h))
                (AlertManagerTagName (h_c h)) (AlertManagerTagValue (h_c h))
                (AlertManagerAnnotationName (h_c h))
                (AlertManagerAnnotationValue (h_c h))
                (any_Level (Level_ (State event))) w) as HR.
  pose proof (lengths_fit_build
                (AlertManagerTagName (h_c h)) (AlertManagerTagValue (h_c h))
                (AlertManagerAnnotationName (h_c h))
                (AlertManagerAnnotationValue (h_c h))
                (any_Level (Level_ (State event)))) as HB.
  rewrite Handle_cases.
  destruct (Alert _ _ _ _ _ _ w) as [[r | p] w1] eqn:Hrun.
  - assert (Hex : exists (r0 : option error) (w' : World),
                    (Return r, w1) = (Return r0, w')) by eauto.
    apply HR in Hex as (c & Hc & Hwhy).
    split.
    + split.
      * intros _. exists c. split; [exact Hc |].
        destruct Hwhy as [He | Hb]; [left; exact He | right; apply HB; exact Hb].
      * intros _. destruct r; eexists; reflexivity.
    + intros p w'. destruct r; discriminate.
  - split.
    + split.
      * intros [w' Hw']. discriminate.
      * intros (c & Hc & Hwhy). exfalso.
        assert (Hex : exists (r0 : option error) (w' : World),
                        (Panicked p, w1) = (Return r0, w')).
        { apply HR. exists c. split; [exact Hc |].
          destruct Hwhy as [He | Hb]; [left; exact He | right; apply HB; exact Hb]. }
        destruct Hex as (r & w' & Hex). discriminate.
    + intros p' w' [= <- <-].
      exact (proj1 (Alert_Panicked_inv _ _ _ _ _ _ w p w1 Hrun)).
Qed.

(** X19: the whole trace of [Handle] on an enabled configuration and a
    record that is built.  A response with the status 200 leaves the request
    and the close; a response with another status adds one diagnostic call
    with the error of that status; a failure of the transport leaves the
    request and one diagnostic call with the error of the transport, and no
    close. *)
Theorem X19_Handle_trace c a (h : handler) (event : alert_Event) w :
  configValue (service w) = Some c -> Enabled c = true ->
  newAlert (AlertManagerTagName (h_c h)) (AlertManagerTagValue (h_c h))
           (AlertManagerAnnotationName (h_c h)) (AlertManagerAnnotationValue (h_c h))
           (any_Level (Level_ (State event))) = Return a ->
  Handle h event w
  = (Return tt,
     extend w
       (http_Post_call (URL c) "application/json" (fst (json_Marshal [a]))
        :: match transport w (trace w) (URL c) "application/json"
                           (fst (json_Marshal [a])) with
           | inl r =>
               if bool_decide (StatusCode r = 200) then [Body_Close_call]
               else [Body_Close_call;
                     diag_Error_call (h_diag h) "E! failed to handle event"
                                     (Errorf_response_code (StatusCode r))]
           | inr e =>
               [diag_Error_call (h_diag h) "E! failed to handle event" e]
           end)).
Proof.
  intros Hc He Hb. rewrite Handle_cases.
  destruct (transport w (trace w) (URL c) "application/json" (fst (json_Marshal [a])))
    as [r | e] eqn:Ht.
  - rewrite (Alert_response _ _ _ _ _ _ w c a r Hc He Hb Ht).
    unfold http_StatusOK. case_bool_decide.
    + reflexivity.
    + rewrite extend_extend. reflexivity.
  - rewrite (Alert_transport_error _ _ _ _ _ _ w c a e Hc He Hb Ht).
    rewrite extend_extend. reflexivity.
Qed.

End ServiceExtras.

(** ** The claims on sample values *)

#[local] Existing Instance quoteOnly.

(** The status of the record of a Critical event. *)
Lemma C3_status_two_way_witness :
  newAlert ["severity"; "team"] ["page"; "storage"]
           ["summary"; "runbook"] ["disk full"; "wiki"] (any_Level Critical)
  = Return sample_alert
  /\ (Status sample_alert = "resolved" <-> Critical = OK)
  /\ (Critical <> OK -> Status sample_alert = "firing").
Proof.
  split; [reflexivity |].
  apply (C3_status_two_way Critical ["severity"; "team"] ["page"; "storage"]
           ["summary"; "runbook"] ["disk full"; "wiki"] sample_alert).
  reflexivity.
Defined.

(** [Update] on no element, on two, on a pointer to a [Config] and on a
    [Config]. *)
Lemma C4_Update_outcomes_witness :
  fst (Update [] world_200) = Return (Some (Errorf_config_count 0))
  /\ fst (Update [any_Config sample_config; any_Config disabled_config] world_200)
     = Return (Some (Errorf_config_count 2))
  /\ fst (Update [any_ConfigPtr (Some disabled_config)] world_200)
     = Return (Some (Errorf_config_type (any_ConfigPtr (Some disabled_config))))
  /\ exists w' : World,
       Update [any_Config disabled_config] world_200 = (Return None, w')
       /\ config w' = (Return disabled_config, w').
Proof.
  split; [| split; [| split]].
  - apply (proj1 (C4_Update_outcomes [] world_200)). left. reflexivity.
  - apply (proj1 (C4_Update_outcomes
                    [any_Config sample_config; any_Config disabled_config] world_200)).
    right. unfold len. cbn. lia.
  - apply (proj1 (proj2 (C4_Update_outcomes
                           [any_ConfigPtr (Some disabled_config)] world_200))
             (any_ConfigPtr (Some disabled_config))).
    + reflexivity.
    + intros c Hc. discriminate Hc.
  - apply (proj2 (proj2 (C4_Update_outcomes [any_Config disabled_config] world_200))
             disabled_config).
    reflexivity.
Defined.

(** [Alert] on a service whose configuration is not enabled. *)
Lemma C5_disabled_no_request_witness :
  configValue (service world_disabled) = Some disabled_config
  /\ Enabled disabled_config = false
  /\ Alert "ops" ["severity"; "team"] ["page"; "storage"]
           ["summary"; "runbook"] ["disk full"; "wiki"] (any_Level Critical)
           world_disabled
     = (Return (Some (errors_New "service is not enabled")), world_disabled)
  /\ posts (trace (snd (Alert "ops" ["severity"; "team"] ["page"; "storage"]
                              ["summary"; "runbook"] ["disk full"; "wiki"]
                              (any_Level Critical) world_disabled)))
     = posts (trace world_disabled).
Proof.
  split; [reflexivity |]. split; [reflexivity |].
  apply (C5_disabled_no_request disabled_config "ops"
           ["severity"; "team"] ["page"; "storage"]
           ["summary"; "runbook"] ["disk full"; "wiki"] (any_Level Critical)
           world_disabled); reflexivity.
Defined.

(** [Alert] against a network that answers 200 and one that answers 500. *)
Lemma C6_response_code_witness :
  fst (Alert "ops" ["severity"; "team"] ["page"; "storage"]
             ["summary"; "runbook"] ["disk full"; "wiki"] (any_Level Critical)
             world_200)
  = Return None
  /\ fst (Alert "ops" ["severity"; "team"] ["page"; "storage"]
                ["summary"; "runbook"] ["disk full"; "wiki"] (any_Level Critical)
                world_500)
     = Return (Some (Errorf_response_code 500)).
Proof.
  split.
  - apply (proj1 (C6_response_code sample_config sample_alert {| StatusCode := 200 |}
                    "ops" ["severity"; "team"] ["page"; "storage"]
                    ["summary"; "runbook"] ["disk full"; "wiki"] (any_Level Critical)
                    world_200 eq_refl eq_refl eq_refl eq_refl)).
    reflexivity.
  - apply (proj2 (C6_response_code sample_config sample_alert {| StatusCode := 500 |}
                    "ops" ["severity"; "team"] ["page"; "storage"]
                    ["summary"; "runbook"] ["disk full"; "wiki"] (any_Level Critical)
                    world_500 eq_refl eq_refl eq_refl eq_refl)).
    cbn. lia.
Defined.

(** [Handle] against the same two networks. *)
Lemma C7_Handle_swallows_witness :
  (Handle sample_handler sample_event world_200
   = (Return tt,
      snd (Alert "ops" ["severity"; "team"] ["page"; "storage"]
                 ["summary"; "runbook"] ["disk full"; "wiki"] (any_Level Critical)
                 world_200))
   /\ diag_Errors (trace (snd (Handle sample_handler sample_event world_200))) = 0%nat)
  /\ (Handle sample_handler sample_event world_500
      = (Return tt,
         extend (snd (Alert "ops" ["severity"; "team"] ["page"; "storage"]
                            ["summary"; "runbook"] ["disk full"; "wiki"]
                            (any_Level Critical) world_500))
                [diag_Error_call [] "E! failed to handle event"
                                 (Errorf_response_code 500)])
      /\ diag_Errors (trace (snd (Handle sample_handler sample_event world_500)))
         = 1%nat).
Proof.
  split.
  - destruct (proj1 (C7_Handle_swallows sample_handler sample_event world_200)
                (snd (Alert "ops" ["severity"; "team"] ["page"; "storage"]
                            ["summary"; "runbook"] ["disk full"; "wiki"]
                            (any_Level Critical) world_200))
                eq_refl) as [HH Hd].
    split; [exact HH |]. rewrite HH. cbn [snd]. rewrite Hd. reflexivity.
  - apply (proj2 (C7_Handle_swallows sample_handler sample_event world_500)
             (Errorf_response_code 500)
             (snd (Alert "ops" ["severity"; "team"] ["page"; "storage"]
                         ["summary"; "runbook"] ["disk full"; "wiki"]
                         (any_Level Critical) world_500))
             eq_refl).
Defined.

(** [Test] on a struct that is not a pointer and on a pointer to options. *)
Lemma C8_Test_outcomes_witness :
  Test (any_testOptions sample_testOptions) world_200
  = (Return (Some Errorf_options_type), world_200)
  /\ Test (any_testOptionsPtr (Some sample_testOptions)) world_500
     = Alert "ops" [] [] [] [] (any_Level Critical) world_500
  /\ fst (Test (any_testOptionsPtr (Some sample_testOptions)) world_500)
     = Return (Some (Errorf_response_code 500)).
Proof.
  split; [| split].
  - apply (proj1 (C8_Test_outcomes (any_testOptions sample_testOptions) world_200)).
    intros p Hp. discriminate Hp.
  - apply (proj2 (C8_Test_outcomes (any_testOptionsPtr (Some sample_testOptions))
                    world_500) sample_testOptions eq_refl).
  - rewrite (proj1 (proj2 (C8_Test_outcomes (any_testOptionsPtr (Some sample_testOptions))
                             world_500) sample_testOptions eq_refl)).
    reflexivity.
Defined.

(** The body of the request for the slices with repeated names, written out:
    the pieces of the list are the stretches of the text between two quote
    characters. *)
Lemma C9_wire_format_witness :
  (exists (labels annotations : list (string * string)) (rest : list Event),
     trace (snd (Alert "ops" repeated_tagName repeated_tagValue
                       repeated_annotationName repeated_annotationValue
                       (any_Level Critical) world_200))
     = (trace world_200
        ++ http_Post_call "https://am.example/api" "application/json"
                          (wire_body "firing" labels annotations) :: rest)%list
     /\ posts rest = 0%nat
     /\ (forall k v : string,
           (k, v) ∈ labels <-> Labels repeated_alert !! k = Some v)
     /\ (forall k v : string,
           (k, v) ∈ annotations <-> Annotations repeated_alert !! k = Some v))
  /\ trace (snd (Alert "ops" repeated_tagName repeated_tagValue
                       repeated_annotationName repeated_annotationValue
                       (any_Level Critical) world_200))
     = [http_Post_call "https://am.example/api" "application/json"
          (String.concat (String (ascii_of_nat 34) EmptyString)
             ["[{"; "Status"; ":"; "firing"; ",";
              "Labels"; ":{"; "env"; ":"; "prod"; ","; "team"; ":"; "storage"; "},";
              "Annotations"; ":{"; "runbook"; ":"; "wiki"; ",";
              "summary"; ":"; "second"; "}}]"]);
        Body_Close_call].
Proof.
  split; [| reflexivity].
  destruct (C9_wire_format sample_config repeated_alert "ops"
              repeated_tagName repeated_tagValue
              repeated_annotationName repeated_annotationValue (any_Level Critical)
              world_200 (fun s _ => eq_refl) eq_refl eq_refl eq_refl)
    as (labels & annotations & rest & Htrace & Hposts & _ & Hl & _ & _ & Ha & _).
  exists labels, annotations, rest. auto.
Defined.

(** A failed [Update] on the sample world. *)
Lemma C10_failed_Update_keeps_config_witness :
  fst (Update [any_string "enabled"] world_200)
  = Return (Some (Errorf_config_type (any_string "enabled")))
  /\ snd (Update [any_string "enabled"] world_200) = world_200
  /\ fst (config (snd (Update [any_string "enabled"] world_200)))
     = fst (config world_200).
Proof.
  split; [reflexivity |].
  destruct (C10_failed_Update_keeps_config [any_string "enabled"] world_200
              (Errorf_config_type (any_string "enabled"))
              (snd (Update [any_string "enabled"] world_200)) eq_refl)
    as (Hworld & Hconfig & _).
  split; assumption.
Defined.

(** ** The further properties on sample values *)

#[local] Existing Instance listDiagnostic.

(** The name that comes twice has the value of its later pair, and the last
    name has no entry. *)
Lemma X1_Labels_content_witness :
  Labels repeated_alert !! "env" = Some "prod"
  /\ Labels repeated_alert !! "zone" = None.
Proof.
  destruct (X1_Labels_content repeated_tagName repeated_tagValue
              repeated_annotationName repeated_annotationValue
              (any_Level Critical) repeated_alert eq_refl) as [Hin Hout].
  split.
  - destruct (Hin 2%nat "env") as (v & Hv & Hl).
    + unfold len. cbn. lia.
    + reflexivity.
    + intros j Hj Hb. unfold len in Hb. cbn in Hb. lia.
    + cbn in Hv. injection Hv as <-. exact Hl.
  - apply Hout. intros [| [| [| j]]] Hb; cbn; try discriminate.
    unfold len in Hb. cbn in Hb. lia.
Defined.

Lemma X2_Annotations_content_witness :
  Annotations repeated_alert !! "summary" = Some "second"
  /\ Annotations repeated_alert !! "owner" = None.
Proof.
  destruct (X2_Annotations_content repeated_tagName repeated_tagValue
              repeated_annotationName repeated_annotationValue
              (any_Level Critical) repeated_alert eq_refl) as [Hin Hout].
  split.
  - destruct (Hin 2%nat "summary") as (v & Hv & Hl).
    + unfold len. cbn. lia.
    + reflexivity.
    + intros j Hj Hb. unfold len in Hb. cbn in Hb. lia.
    + cbn in Hv. injection Hv as <-. exact Hl.
  - apply Hout. intros [| [| [| j]]] Hb; cbn; try discriminate.
    unfold len in Hb. cbn in Hb. lia.
Defined.

Lemma X3_entries_bounded_witness :
  (size (Labels repeated_alert) <= 3)%nat
  /\ (size (Annotations repeated_alert) <= 3)%nat.
Proof.
  exact (X3_entries_bounded repeated_tagName repeated_tagValue
           repeated_annotationName repeated_annotationValue
           (any_Level Critical) repeated_alert eq_refl).
Defined.

(** One label name and more annotations than labels. *)
Lemma X4_at_most_one_name_empty_record_witness :
  newAlert ["severity"] ["page"] ["summary"; "runbook"] ["disk full"]
           (any_Level OK)
  = Return (empty_alert "resolved").
Proof.
  apply (X4_at_most_one_name_empty_record ["severity"] ["page"]
           ["summary"; "runbook"] ["disk full"] (any_Level OK)).
  unfold len. cbn. lia.
Defined.

(** Three names with one value; three names with two values and an
    annotation name without a value. *)
Lemma X5_panic_index_witness :
  newAlert ["a"; "b"; "c"] ["x"] [] [] (any_Level Critical)
  = Panicked (index_out_of_range 1 1)
  /\ newAlert ["a"; "b"; "c"] ["x"; "y"] ["summary"] [] (any_Level Critical)
     = Panicked (index_out_of_range 0 0).
Proof.
  split.
  - apply (proj1 (X5_panic_index ["a"; "b"; "c"] ["x"] [] [] (any_Level Critical))).
    unfold len. cbn. lia.
  - apply (proj2 (X5_panic_index ["a"; "b"; "c"] ["x"; "y"] ["summary"] []
                    (any_Level Critical))).
    + unfold len. cbn. lia.
    + unfold len. cbn. lia.
Defined.

(** The integer 0 is not the level OK. *)
Lemma X6_status_of_interface_value_witness :
  (Status (empty_alert "firing") = "resolved" <-> any_int 0 = any_Level OK)
  /\ (any_int 0 <> any_Level OK -> Status (empty_alert "firing") = "firing").
Proof.
  exact (X6_status_of_interface_value [] [] [] [] (any_int 0)
           (empty_alert "firing") eq_refl).
Defined.

Lemma X7_Alert_returns_iff_witness :
  exists (r : option error) (w' : World),
    Alert "ops" repeated_tagName repeated_tagValue
          repeated_annotationName repeated_annotationValue
          (any_Level Critical) world_200
    = (Return r, w').
Proof.
  apply (proj2 (X7_Alert_returns_iff "ops" repeated_tagName repeated_tagValue
                  repeated_annotationName repeated_annotationValue
                  (any_Level Critical) world_200)).
  exists sample_config. split; [reflexivity |].
  right. right. unfold len. cbn. lia.
Defined.

(** Two label pairs and no annotation: the panic comes before the request. *)
Lemma X8_Alert_panics_before_request_witness :
  snd (Alert "ops" ["a"; "b"] ["x"; "y"] [] [] (any_Level Critical) world_200)
  = world_200
  /\ (index_out_of_range 0 0 = nil_interface_conversion
      /\ configValue (service world_200) = None
      \/ exists (i l : Z), index_out_of_range 0 0 = index_out_of_range i l).
Proof.
  exact (X8_Alert_panics_before_request "ops" ["a"; "b"] ["x"; "y"] [] []
           (any_Level Critical) world_200 (index_out_of_range 0 0)
           (snd (Alert "ops" ["a"; "b"] ["x"; "y"] [] [] (any_Level Critical)
                       world_200))
           eq_refl).
Defined.

Lemma X9_request_then_close_witness :
  snd (Alert "ops" ["severity"; "team"] ["page"; "storage"]
             ["summary"; "runbook"] ["disk full"; "wiki"] (any_Level Critical)
             world_500)
  = extend world_500
      [http_Post_call "https://am.example/api" "application/json"
                      (fst (json_Marshal [sample_alert]));
       Body_Close_call]
  /\ Alert "ops" ["severity"; "team"] ["page"; "storage"]
           ["summary"; "runbook"] ["disk full"; "wiki"] (any_Level Critical)
           world_refused
     = (Return (Some (transport_error "connection refused")),
        extend world_refused
          [http_Post_call "https://am.example/api" "application/json"
                          (fst (json_Marshal [sample_alert]))]).
Proof.
  split.
  - apply (proj1 (X9_request_then_close sample_config sample_alert "ops"
                    ["severity"; "team"] ["page"; "storage"]
                    ["summary"; "runbook"] ["disk full"; "wiki"]
                    (any_Level Critical) world_500 eq_refl eq_refl eq_refl)
             {| StatusCode := 500 |}).
    reflexivity.
  - apply (proj2 (X9_request_then_close sample_config sample_alert "ops"
                    ["severity"; "team"] ["page"; "storage"]
                    ["summary"; "runbook"] ["disk full"; "wiki"]
                    (any_Level Critical) world_refused eq_refl eq_refl eq_refl)
             (transport_error "connection refused")).
    reflexivity.
Defined.

(** A handler made before the configuration is replaced. *)
Lemma X14_handler_follows_Update_witness :
  Handle {| h_c := h_c sample_handler; h_diag := [KV "task" "cpu"] |} sample_event
         (snd (Update [any_Config disabled_config] world_200))
  = (Return tt,
     extend (snd (Update [any_Config disabled_config] world_200))
            [diag_Error_call [KV "task" "cpu"] "E! failed to handle event"
                             (errors_New "service is not enabled")])
  /\ exists rest : list Event,
       trace (snd (Handle {| h_c := h_c sample_handler; h_diag := [KV "task" "cpu"] |}
                          sample_event
                          (snd (Update [any_Config other_config] world_200))))
       = (trace world_200
          ++ http_Post_call "https://am2.example/api" "application/json"
                            (fst (json_Marshal [sample_alert])) :: rest)%list.
Proof.
  split.
  - exact (proj1 (X14_handler_follows_Update (h_c sample_handler) [KV "task" "cpu"]
                    {| h_c := h_c sample_handler; h_diag := [KV "task" "cpu"] |}
                    None world_200 disabled_config sample_event world_200 eq_refl)
             eq_refl).
  - apply (proj2 (X14_handler_follows_Update (h_c sample_handler) [KV "task" "cpu"]
                    {| h_c := h_c sample_handler; h_diag := [KV "task" "cpu"] |}
                    None world_200 other_config sample_event world_200 eq_refl)
             eq_refl sample_alert).
    reflexivity.
Defined.

Lemma X15_TestOptions_then_Test_witness :
  exists o : any,
    TestOptions world_500 = (Return o, world_500)
    /\ fst (Test o world_500) = Return (Some (Errorf_response_code 500)).
Proof.
  destruct (X15_TestOptions_then_Test sample_config world_500 eq_refl)
    as (o & Ho & Htest & _).
  exists o. split; [exact Ho |]. rewrite Htest. reflexivity.
Defined.

Lemma X16_default_handler_witness :
  DefaultHandlerConfig world_200
  = (Return {| hc_Room := "ops";
               AlertManagerTagName := [];
               AlertManagerTagValue := [];
               AlertManagerAnnotationName := [];
               AlertManagerAnnotationValue := [] |}, world_200)
  /\ (exists w' : World,
        Handle {| h_c := {| hc_Room := "ops";
                            AlertManagerTagName := [];
                            AlertManagerTagValue := [];
                            AlertManagerAnnotationName := [];
                            AlertManagerAnnotationValue := [] |};
                  h_diag := [KV "task" "cpu"] |}
               sample_event world_200 = (Return tt, w'))
  /\ exists rest : list Event,
       trace (snd (Handle {| h_c := {| hc_Room := "ops";
                                       AlertManagerTagName := [];
                                       AlertManagerTagValue := [];
                                       AlertManagerAnnotationName := [];
                                       AlertManagerAnnotationValue := [] |};
                             h_diag := [KV "task" "cpu"] |}
                          sample_event world_200))
       = (trace world_200
          ++ http_Post_call "https://am.example/api" "application/json"
                            (fst (json_Marshal [empty_alert "firing"])) :: rest)%list.
Proof.
  destruct (X16_default_handler sample_config [KV "task" "cpu"] sample_event
              world_200 eq_refl) as [Hd Hh].
  split; [exact Hd |].
  destruct (Hh _ {| h_c := {| hc_Room := "ops";
                              AlertManagerTagName := [];
                              AlertManagerTagValue := [];
                              AlertManagerAnnotationName := [];
                              AlertManagerAnnotationValue := [] |};
                    h_diag := [KV "task" "cpu"] |}
              None world_200 Hd eq_refl) as [Hret Hpost].
  split; [exact Hret |]. exact (Hpost eq_refl).
Defined.


Lemma X17_Handle_disabled_reports_witness :
  Handle sample_handler sample_event world_disabled
  = (Return tt,
     extend world_disabled
            [diag_Error_call [] "E! failed to handle event"
                             (errors_New "service is not enabled")]).
Proof.
  exact (X17_Handle_disabled_reports disabled_config sample_handler sample_event
           world_disabled eq_refl eq_refl).
Defined.

(** A handler with two label names and no annotation does not return. *)
Lemma X18_Handle_returns_iff_witness :
  (exists w' : World, Handle sample_handler sample_event world_200 = (Return tt, w'))
  /\ ~ (exists w' : World,
          Handle {| h_c := {| hc_Room := "ops";
                              AlertManagerTagName := ["a"; "b"];
                              AlertManagerTagValue := ["x"; "y"];
                              AlertManagerAnnotationName := [];
                              AlertManagerAnnotationValue := [] |};
                    h_diag := [] |}
                 sample_event world_200 = (Return tt, w')).
Proof.
  split.
  - apply (proj2 (proj1 (X18_Handle_returns_iff sample_handler sample_event world_200))).
    exists sample_config. split; [reflexivity |].
    right. right. unfold len. cbn. lia.
  - intros Hret.
    apply (proj1 (proj1 (X18_Handle_returns_iff _ sample_event world_200))) in Hret.
    destruct Hret as (c & Hc & Hwhy).
    injection Hc as <-. unfold len in Hwhy. cbn in Hwhy.
    destruct Hwhy as [He | [Hl | Hl]]; [discriminate | lia | lia].
Defined.

Lemma X19_Handle_trace_witness :
  Handle sample_handler sample_event world_500
  = (Return tt,
     extend world_500
       [http_Post_call "https://am.example/api" "application/json"
                       (fst (json_Marshal [sample_alert]));
        Body_Close_call;
        diag_Error_call [] "E! failed to handle event" (Errorf_response_code 500)])
  /\ Handle sample_handler sample_event world_refused
     = (Return tt,
        extend world_refused
          [http_Post_call "https://am.example/api" "application/json"
                          (fst (json_Marshal [sample_alert]));
           diag_Error_call [] "E! failed to handle event"
                           (transport_error "connection refused")]).
Proof.
  split.
  - exact (X19_Handle_trace sample_config sample_alert sample_handler sample_event
             world_500 eq_refl eq_refl eq_refl).
  - exact (X19_Handle_trace sample_config sample_alert sample_handler sample_event
             world_refused eq_refl eq_refl eq_refl).
Defined.

(** A valid call, then a call with two elements and a call with a string. *)
Lemma X20_config_after_NewService_witness :
  exists c,
    fst (config (foldl (fun w newConfig => snd (Update newConfig w)) world_200
                       [[any_Config other_config];
                        [any_Config sample_config; any_Config disabled_config];
                        [any_string "enabled"]]))
    = Return c
    /\ c = other_config.
Proof.
  exact (X20_config_after_NewService sample_config []
           [[any_Config other_config];
            [any_Config sample_config; any_Config disabled_config];
            [any_string "enabled"]]
           world_200 eq_refl).
Defined.
